(** * japan-stock-mcp: [scripts/fetch_financials.py]

    A shallow embedding of the financial-data fetcher and the properties
    of its field mapping, its error handling and its output encoding.

    The script is a single function, [get_financial_data], plus a
    command-line entry point.  Python values are embedded as the
    inductive type [pyval]; Python [str] is a list of Unicode code
    points; [float] is IEEE binary64 as specified by [SpecFloat];
    exceptions are the [Raised] branch of [outcome]; the provider call
    and the [print] calls are events appended to a trace.  The streams
    are modelled as text; which texts standard output refuses to encode
    is a matter of the environment and is a parameter, and
    [json.dumps] raises on the values the interpreter refuses to
    convert.  Both calls are inside the [try] of the script, so their
    exceptions reach its handler. *)

From Stdlib Require Import ZArith NArith List Bool Ascii String Lia.
From Stdlib Require Import DecimalString.
From Stdlib Require Import Floats.SpecFloat.
From ExtLib Require Import Structures.Monad Structures.MonadExc.
Import ListNotations.
Import MonadNotation.
Local Open Scope monad_scope.
Local Open Scope Z_scope.
Set Warnings "-register-all".

(** ** Python strings *)

(** A Python [str] is a sequence of Unicode code points. *)
Definition pystr := list N.

(** An ASCII literal of the source, as a [pystr]. *)
Definition str (s : string) : pystr :=
  map N_of_ascii (list_ascii_of_string s).
Arguments str s%_string.

Fixpoint str_eqb (a b : pystr) : bool :=
  match a, b with
  | [], [] => true
  | x :: a', y :: b' => N.eqb x y && str_eqb a' b'
  | _, _ => false
  end.

(** [s.startswith(p)] *)
Fixpoint str_startswith (p s : pystr) : bool :=
  match p, s with
  | [], _ => true
  | x :: p', y :: s' => N.eqb x y && str_startswith p' s'
  | _ :: _, [] => false
  end.

(** [p in s]: [p] occurs in [s] at some position. *)
Fixpoint str_contains (p s : pystr) : bool :=
  str_startswith p s ||
  match s with
  | [] => false
  | _ :: s' => str_contains p s'
  end.

(** [s.endswith(p)] *)
Definition str_endswith (p s : pystr) : bool :=
  str_startswith (rev p) (rev s).

(** ** Python values *)

(** The values a provider response (parsed JSON) can hold.  A [dict] is
    kept as its items in insertion order, which is the order
    [json.dumps] writes them in. *)
Inductive pyval : Type :=
| PyNone
| PyBool (b : bool)
| PyInt (z : Z)
| PyFloat (f : spec_float)
| PyStr (s : pystr)
| PyList (l : list pyval)
| PyDict (d : list (pystr * pyval)).

Definition pydict := list (pystr * pyval).

(** [d.get(k)]: the value under [k], [None] when the key is missing. *)
Fixpoint dict_get (d : pydict) (k : pystr) : pyval :=
  match d with
  | [] => PyNone
  | (k', v) :: d' => if str_eqb k' k then v else dict_get d' k
  end.

(** [d[k]] for a key that may be missing. *)
Fixpoint dict_lookup (d : pydict) (k : pystr) : option pyval :=
  match d with
  | [] => None
  | (k', v) :: d' => if str_eqb k' k then Some v else dict_lookup d' k
  end.

(** [info.get(k)] for a key written as a literal in the source. *)
Definition info_get (info : pydict) (k : string) : pyval :=
  dict_get info (str k).
Arguments info_get info k%_string.

(** [bool(v)]: Python's truth value. *)
Definition truthy (v : pyval) : bool :=
  match v with
  | PyNone => false
  | PyBool b => b
  | PyInt z => negb (z =? 0)
  | PyFloat (S754_zero _) => false
  | PyFloat _ => true
  | PyStr s => match s with [] => false | _ => true end
  | PyList l => match l with [] => false | _ => true end
  | PyDict d => match d with [] => false | _ => true end
  end.

(** [a or b] *)
Definition py_or (a b : pyval) : pyval :=
  if truthy a then a else b.

(** ** Exceptions *)

Record pyexn := mkExn { exn_class : string; exn_str : pystr }.

Inductive outcome (A : Type) : Type :=
| Returned (a : A)
| Raised (e : pyexn).
Arguments Returned {A} a.
Arguments Raised {A} e.

#[global] Instance Monad_outcome : Monad outcome :=
  {| ret := fun _ a => Returned a;
     bind := fun _ _ c k =>
       match c with
       | Returned a => k a
       | Raised e => Raised e
       end |}.

Definition TypeError (msg : pystr) : pyexn := mkExn "TypeError"%string msg.
Definition OverflowError (msg : pystr) : pyexn := mkExn "OverflowError"%string msg.

(** ** Arithmetic *)

Definition prec : Z := 53.
Definition emax : Z := 1024.

(** [float(n)] for an [int] [n]. *)
Definition float_of_int (n : Z) : outcome spec_float :=
  match binary_normalize prec emax n 0 false with
  | S754_infinity _ =>
      Raised (OverflowError (str "int too large to convert to float"))
  | f => Returned f
  end.

Definition float_mul (x y : spec_float) : spec_float := SFmul prec emax x y.

Definition seq_repeat {A} (l : list A) (n : Z) : list A :=
  List.concat (repeat l (Z.to_nat n)).

(** [v * n] for an [int] [n]. *)
Definition py_mul (v : pyval) (n : Z) : outcome pyval :=
  match v with
  | PyNone =>
      Raised (TypeError
        (str "unsupported operand type(s) for *: 'NoneType' and 'int'"))
  | PyBool b => Returned (PyInt ((if b then 1 else 0) * n))
  | PyInt z => Returned (PyInt (z * n))
  | PyFloat f => y <- float_of_int n ;; ret (PyFloat (float_mul f y))
  | PyStr s => Returned (PyStr (seq_repeat s n))
  | PyList l => Returned (PyList (seq_repeat l n))
  | PyDict _ =>
      Raised (TypeError
        (str "unsupported operand type(s) for *: 'dict' and 'int'"))
  end.

(** ** Field mapping *)

(** [x * 100 if x else None] *)
Definition percent (x : pyval) : outcome pyval :=
  if truthy x then py_mul x 100 else Returned PyNone.

(** The dict display bound to [financial_data].  Its items are evaluated
    in the order written; only the four percentage items can raise, so
    the first of them to raise decides the exception. *)
Definition financial_data (symbol : pystr) (info : pydict) : outcome pydict :=
  dividendYield <- percent (info_get info "dividendYield") ;;
  roe <- percent (info_get info "returnOnEquity") ;;
  operatingMargin <- percent (info_get info "operatingMargins") ;;
  profitMargin <- percent (info_get info "profitMargins") ;;
  ret [ (str "symbol", PyStr symbol);
        (str "companyName",
           py_or (info_get info "longName") (py_or (info_get info "shortName") (PyStr symbol)));
        (str "marketCap", info_get info "marketCap");
        (str "per", py_or (info_get info "trailingPE") (info_get info "forwardPE"));
        (str "pbr", info_get info "priceToBook");
        (str "eps", info_get info "trailingEps");
        (str "dividendYield", dividendYield);
        (str "roe", roe);
        (str "debtToEquity", info_get info "debtToEquity");
        (str "currentRatio", info_get info "currentRatio");
        (str "operatingMargin", operatingMargin);
        (str "profitMargin", profitMargin);
        (str "revenue", info_get info "totalRevenue");
        (str "netIncome", info_get info "netIncomeToCommon");
        (str "totalAssets", info_get info "totalAssets");
        (str "totalDebt", info_get info "totalDebt");
        (str "shareholdersEquity", info_get info "totalStockholdersEquity") ].

(** ** [json.dumps] *)

Definition hex_digit (n : N) : N :=
  (if n <? 10 then 48 + n else 87 + n)%N.

(** ['{0:04x}'.format(n)] for [n < 0x10000] *)
Definition hex4 (n : N) : pystr :=
  [ hex_digit ((n / 4096) mod 16); hex_digit ((n / 256) mod 16);
    hex_digit ((n / 16) mod 16); hex_digit (n mod 16) ]%N.

Definition u_escape (n : N) : pystr := [92; 117]%N ++ hex4 n.

(** [json.encoder.ESCAPE_DCT]: a backslash and a letter (or the
    character itself) for seven characters, and the six-character form
    [u_escape] for the other control characters. *)
Definition ESCAPE_DCT (c : N) : option pystr :=
  (if c =? 92 then Some [92; 92]
   else if c =? 34 then Some [92; 34]
   else if c =? 8 then Some [92; 98]
   else if c =? 12 then Some [92; 102]
   else if c =? 10 then Some [92; 110]
   else if c =? 13 then Some [92; 114]
   else if c =? 9 then Some [92; 116]
   else if c <? 32 then Some (u_escape c)
   else None)%N.

(** The replacement [py_encode_basestring] makes for one character: the
    pattern [ESCAPE] matches exactly the keys of [ESCAPE_DCT]. *)
Definition escape_char (c : N) : pystr :=
  match ESCAPE_DCT c with
  | Some e => e
  | None => [c]
  end.

(** The replacement [py_encode_basestring_ascii] makes for one
    character: the pattern [ESCAPE_ASCII] matches the backslash, the
    quote and everything outside [' '..'~']. *)
Definition escape_char_ascii (c : N) : pystr :=
  (if (c =? 92) || (c =? 34) || negb ((32 <=? c) && (c <=? 126)) then
     match ESCAPE_DCT c with
     | Some e => e
     | None =>
         if c <? 0x10000 then u_escape c
         else
           let n := c - 0x10000 in
           let s1 := N.lor 0xd800 (N.land (N.shiftr n 10) 0x3ff) in
           let s2 := N.lor 0xdc00 (N.land n 0x3ff) in
           u_escape s1 ++ u_escape s2
     end
   else [c])%N.

Definition quote : N := 34%N.

Definition py_encode_basestring (s : pystr) : pystr :=
  [quote] ++ flat_map escape_char s ++ [quote].

Definition py_encode_basestring_ascii (s : pystr) : pystr :=
  [quote] ++ flat_map escape_char_ascii s ++ [quote].

Definition encode_str (ensure_ascii : bool) (s : pystr) : pystr :=
  if ensure_ascii then py_encode_basestring_ascii s
  else py_encode_basestring s.

(** [sep.join(items)] *)
Fixpoint join (sep : pystr) (items : list pystr) : pystr :=
  match items with
  | [] => []
  | [x] => x
  | x :: rest => x ++ sep ++ join sep rest
  end.

(** The text [int.__repr__] returns, when it returns: the decimal digits
    after the sign. *)
Definition int_text (z : Z) : pystr :=
  map N_of_ascii (list_ascii_of_string (NilZero.string_of_int (Z.to_int z))).

(** [sys.int_info.default_max_str_digits]: the interpreter refuses to
    convert an [int] of more digits to text. *)
Definition int_max_str_digits : nat := 4300.

Definition int_digits (z : Z) : nat := List.length (int_text (Z.abs z)).

Definition ValueError (msg : pystr) : pyexn := mkExn "ValueError"%string msg.

Definition exceeds_limit : pystr :=
  str "Exceeds the limit (4300 digits) for integer string conversion; use sys.set_int_max_str_digits() to increase the limit".

(** The value holds an [int] that [int.__repr__] refuses. *)
Fixpoint has_long_int (v : pyval) : bool :=
  match v with
  | PyInt z => (int_max_str_digits <? int_digits z)%nat
  | PyList l => existsb has_long_int l
  | PyDict d => existsb (fun kv => has_long_int (snd kv)) d
  | _ => false
  end.

Section Fetcher.

(** [float.__repr__] on finite floats (the shortest decimal string that
    reads back as the same float) is a builtin of the language. *)
Variable float_repr : spec_float -> pystr.

(** [json.encoder.floatstr] with [allow_nan=True] *)
Definition floatstr (f : spec_float) : pystr :=
  match f with
  | S754_nan => str "NaN"
  | S754_infinity false => str "Infinity"
  | S754_infinity true => str "-Infinity"
  | _ => float_repr f
  end.

(** The text [json.dumps(v, ensure_ascii=...)] returns, when it returns,
    with the default separators. *)
Fixpoint json_text (ensure_ascii : bool) (v : pyval) : pystr :=
  match v with
  | PyNone => str "null"
  | PyBool true => str "true"
  | PyBool false => str "false"
  | PyInt z => int_text z
  | PyFloat f => floatstr f
  | PyStr s => encode_str ensure_ascii s
  | PyList l =>
      str "[" ++ join (str ", ") (map (json_text ensure_ascii) l) ++ str "]"
  | PyDict d =>
      str "{" ++
      join (str ", ")
        (map (fun kv => encode_str ensure_ascii (fst kv) ++ str ": " ++
                        json_text ensure_ascii (snd kv)) d) ++
      str "}"
  end.

(** [json.dumps(v, ensure_ascii=...)]: the conversion of an [int] of
    more than [int_max_str_digits] digits raises, and so does the call;
    on every other value of [pyval] the call returns the text.  (Values
    nested deeply enough to exhaust the recursion limit of the
    interpreter are not responses a provider can parse either, and have
    no counterpart here.) *)
Definition json_dumps (ensure_ascii : bool) (v : pyval) : outcome pystr :=
  if has_long_int v then Raised (ValueError exceeds_limit)
  else Returned (json_text ensure_ascii v).

(** ** The process: provider calls and output streams *)

Inductive stream := stdout | stderr.

Inductive event :=
| Lookup (yahoo_symbol : pystr)
| Print (file : stream) (text : pystr).

Definition trace := list event.

(** A computation that may raise and that appends to the trace of the
    process; what was written stays written when an exception is raised.
    Every [pyexn] is an instance of [Exception], the class the handler
    of [get_financial_data] catches; [KeyboardInterrupt] and
    [SystemExit], which are not, come from outside the lookup and have
    no counterpart here. *)
Definition IO (A : Type) : Type := trace -> outcome A * trace.

#[local] Instance Monad_IO : Monad IO :=
  {| ret := fun _ a t => (Returned a, t);
     bind := fun _ _ c k t =>
       match c t with
       | (Returned a, t') => k a t'
       | (Raised e, t') => (Raised e, t')
       end |}.

(** [raise e], and [try: c except Exception as e: h e] *)
#[local] Instance Exception_IO : MonadExc pyexn IO :=
  {| raise := fun _ e t => (Raised e, t);
     catch := fun _ c h t =>
       match c t with
       | (Raised e, t') => h e t'
       | r => r
       end |}.

Definition lift {A} (o : outcome A) : IO A := fun t => (o, t).

(** What writing a text to [sys.stdout] raises, if anything: the stream
    encodes the text before it writes a byte, and raises
    [UnicodeEncodeError] when its codec and error handler, which the
    environment of the process chooses, cannot encode a character (a
    lone surrogate on a strict UTF-8 stream). *)
Variable stdout_error : pystr -> option pyexn.

(** [sys.stderr] encodes with [backslashreplace], which takes any
    text. *)
Definition write_error (file : stream) (text : pystr) : option pyexn :=
  match file with
  | stdout => stdout_error text
  | stderr => None
  end.

(** [print(text, file=file)]: the text is written first, the newline
    after it; when the text is refused nothing is written. *)
Definition print (file : stream) (text : pystr) : IO unit :=
  fun t =>
    match write_error file text with
    | Some e => (Raised e, t)
    | None => (Returned tt, t ++ [Print file (text ++ [10%N])])
    end.

(** The line [print] writes for a record, when [json.dumps] returns and
    the stream takes the text. *)
Definition line (ensure_ascii : bool) (record : pydict) : pystr :=
  json_text ensure_ascii (PyDict record) ++ [10%N].

(** What [print(json.dumps(record, ensure_ascii=False))] raises, if
    anything: the exception of [json.dumps], or else that of the
    stream. *)
Definition emit_error (record : pydict) : option pyexn :=
  match json_dumps false (PyDict record) with
  | Raised e => Some e
  | Returned text => stdout_error text
  end.

(** The provider: what [yf.Ticker(yahoo_symbol).info] returns or raises. *)
Variable ticker_info : pystr -> outcome pydict.

Definition Ticker_info (yahoo_symbol : pystr) : IO pydict :=
  fun t => (ticker_info yahoo_symbol, t ++ [Lookup yahoo_symbol]).

(** ** [get_financial_data] *)

(** [symbol if '.T' in symbol else f"{symbol}.T"] *)
Definition yahoo_symbol (symbol : pystr) : pystr :=
  if str_contains (str ".T") symbol then symbol else symbol ++ str ".T".

Definition error_data (e : pyexn) (symbol : pystr) : pydict :=
  [ (str "error", PyBool true);
    (str "message", PyStr (exn_str e));
    (str "symbol", PyStr symbol) ].

Definition get_financial_data (symbol : pystr) : IO Z :=
  catch
    (info <- Ticker_info (yahoo_symbol symbol) ;;
     data <- lift (financial_data symbol info) ;;
     text <- lift (json_dumps false (PyDict data)) ;;
     print stdout text ;;
     ret 0)
    (fun e =>
       text <- lift (json_dumps false (PyDict (error_data e symbol))) ;;
       print stderr text ;;
       ret 1).

(** ** The entry point *)

(** The message of the usage error, Japanese for "please give a stock
    code", as its fourteen code points. *)
Definition usage_message : pystr :=
  [ 0x9298; 0x67c4; 0x30b3; 0x30fc; 0x30c9; 0x3092; 0x6307; 0x5b9a;
    0x3057; 0x3066; 0x304f; 0x3060; 0x3055; 0x3044 ]%N.

Definition usage_error : pydict :=
  [ (str "error", PyBool true); (str "message", PyStr usage_message) ].

(** The [__main__] block on [sys.argv]; the value returned is the
    argument of [sys.exit]. *)
Definition main (argv : list pystr) : IO Z :=
  if negb (Nat.eqb (List.length argv) 2) then
    text <- lift (json_dumps true (PyDict usage_error)) ;;
    print stderr text ;;
    ret 1
  else
    let symbol := nth 1 argv [] in
    get_financial_data symbol.

(** A run of the process from an empty trace. *)
Definition run (argv : list pystr) : outcome Z * trace := main argv [].

End Fetcher.

(** * Vocabulary of the properties *)

(** A provider value that is present: the key is there and its value is
    not [None]. *)
Definition present (v : pyval) : bool :=
  match v with
  | PyNone => false
  | _ => true
  end.

(** A provider value that is a number. *)
Definition is_number (v : pyval) : bool :=
  match v with
  | PyInt _ | PyFloat _ => true
  | _ => false
  end.

Definition number_or_None (v : pyval) : bool :=
  match v with
  | PyNone => true
  | _ => is_number v
  end.

Definition finite_float (f : spec_float) : bool :=
  match f with
  | S754_zero _ | S754_finite _ _ _ => true
  | _ => false
  end.

Definition finite_number (v : pyval) : bool :=
  match v with
  | PyInt _ => true
  | PyFloat f => finite_float f
  | _ => false
  end.

Definition finite_or_None (v : pyval) : bool :=
  match v with
  | PyNone => true
  | _ => finite_number v
  end.

Definition scalable (f : spec_float) : bool :=
  match f with
  | S754_finite _ m e => Zpos (digits2_pos m) + e <=? 1016
  | _ => true
  end.

Definition scalable_value (v : pyval) : bool :=
  match v with
  | PyFloat f => scalable f
  | _ => true
  end.

(** [float(100)] *)
Definition hundred : spec_float := S754_finite false 7036874417766400 (-46).

(** The percentage fields of the record and the provider keys they are
    read from. *)
Definition percent_fields : list (string * string) :=
  [ ("dividendYield", "dividendYield"); ("roe", "returnOnEquity");
    ("operatingMargin", "operatingMargins");
    ("profitMargin", "profitMargins") ]%string.

(** The fields copied from one provider key, and that key. *)
Definition passthrough_fields : list (string * string) :=
  [ ("marketCap", "marketCap"); ("pbr", "priceToBook");
    ("eps", "trailingEps"); ("debtToEquity", "debtToEquity");
    ("currentRatio", "currentRatio"); ("revenue", "totalRevenue");
    ("netIncome", "netIncomeToCommon"); ("totalAssets", "totalAssets");
    ("totalDebt", "totalDebt");
    ("shareholdersEquity", "totalStockholdersEquity") ]%string.

(** The numeric fields of the record, and the provider keys read for
    them. *)
Definition numeric_fields : list string :=
  map fst passthrough_fields ++ ["per"%string] ++ map fst percent_fields.

Definition numeric_keys : list string :=
  map snd passthrough_fields ++ ["trailingPE"; "forwardPE"]%string ++
  map snd percent_fields.

(** The record [financial_data] returns, given the four percentages. *)
Definition mapped (symbol : pystr) (info : pydict)
    (dividendYield roe operatingMargin profitMargin : pyval) : pydict :=
  [ (str "symbol", PyStr symbol);
    (str "companyName",
       py_or (info_get info "longName")
             (py_or (info_get info "shortName") (PyStr symbol)));
    (str "marketCap", info_get info "marketCap");
    (str "per", py_or (info_get info "trailingPE") (info_get info "forwardPE"));
    (str "pbr", info_get info "priceToBook");
    (str "eps", info_get info "trailingEps");
    (str "dividendYield", dividendYield);
    (str "roe", roe);
    (str "debtToEquity", info_get info "debtToEquity");
    (str "currentRatio", info_get info "currentRatio");
    (str "operatingMargin", operatingMargin);
    (str "profitMargin", profitMargin);
    (str "revenue", info_get info "totalRevenue");
    (str "netIncome", info_get info "netIncomeToCommon");
    (str "totalAssets", info_get info "totalAssets");
    (str "totalDebt", info_get info "totalDebt");
    (str "shareholdersEquity", info_get info "totalStockholdersEquity") ].

Definition non_ascii (c : N) : bool := (128 <=? c)%N.

Definition is_newline (c : N) : bool := (c =? 10)%N.

(** An ASCII character other than the newline. *)
Definition plain (c : N) : bool := negb (non_ascii c) && negb (is_newline c).

(** The non-ASCII characters of the strings of a value, keys included, in
    the order [json.dumps] meets them. *)
Fixpoint non_ascii_chars (v : pyval) : pystr :=
  match v with
  | PyStr s => filter non_ascii s
  | PyList l => flat_map non_ascii_chars l
  | PyDict d =>
      flat_map (fun kv => filter non_ascii (fst kv) ++ non_ascii_chars (snd kv)) d
  | _ => []
  end.

(** The keys of the record [get_financial_data] prints, in the order of
    the dict display. *)
Definition record_keys : list string :=
  [ "symbol"; "companyName"; "marketCap"; "per"; "pbr"; "eps";
    "dividendYield"; "roe"; "debtToEquity"; "currentRatio";
    "operatingMargin"; "profitMargin"; "revenue"; "netIncome";
    "totalAssets"; "totalDebt"; "shareholdersEquity" ]%string.

(** The keys [get_financial_data] reads from the provider response. *)
Definition provider_keys : list string :=
  [ "longName"; "shortName"; "marketCap"; "trailingPE"; "forwardPE";
    "priceToBook"; "trailingEps"; "dividendYield"; "returnOnEquity";
    "debtToEquity"; "currentRatio"; "operatingMargins"; "profitMargins";
    "totalRevenue"; "netIncomeToCommon"; "totalAssets"; "totalDebt";
    "totalStockholdersEquity" ]%string.

(** A non-empty JSON object. *)
Definition is_object (v : pyval) : bool :=
  match v with
  | PyDict (_ :: _) => true
  | _ => false
  end.

(** Some percentage fraction of the response is a non-empty object. *)
Definition has_object_fraction (info : pydict) : bool :=
  existsb (fun p => is_object (info_get info (snd p))) percent_fields.

(** The message of the [TypeError] that [dict * int] raises. *)
Definition dict_times_int : pystr :=
  str "unsupported operand type(s) for *: 'dict' and 'int'".

(** A float of the response is a binary64 value. *)
Definition valid_value (v : pyval) : bool :=
  match v with
  | PyFloat f => valid_binary prec emax f
  | _ => true
  end.

(** * Sample responses *)

(** The response of the first scenario: a long name, a trailing P/E of
    [10.5] and a dividend yield of [0.025]. *)
Definition toyota_info : pydict :=
  [ (str "longName", PyStr (str "Toyota Motor Corp"));
    (str "trailingPE", PyFloat (S754_finite false 5910974510923776 (-49)));
    (str "dividendYield",
       PyFloat (S754_finite false 7205759403792794 (-58))) ].

(** A response in which the dividend yield is a nested object. *)
Definition nested_info : pydict :=
  [ (str "longName", PyStr (str "Sony Group Corporation"));
    (str "dividendYield",
       PyDict [ (str "raw", PyFloat (S754_finite false 7205759403792794 (-58)));
                (str "fmt", PyStr (str "2.50%")) ]) ].

Definition not_found : pyexn :=
  mkExn "Exception" (str "No data found, symbol may be delisted").

(** A provider that knows two symbols. *)
Definition sample_ticker_info (yahoo_symbol : pystr) : outcome pydict :=
  if str_eqb yahoo_symbol (str "7203.T") then Returned toyota_info
  else if str_eqb yahoo_symbol (str "6758.T") then Returned nested_info
  else Raised not_found.

(** [float.__repr__] on the floats of the sample runs. *)
Definition sample_float_repr (f : spec_float) : pystr :=
  match f with
  | S754_finite false 5910974510923776 (-49) => str "10.5"
  | S754_finite false 5629499534213120 (-51) => str "2.5"
  | _ => str "0.0"
  end.

(** The first response with two more keys, which the script does not
    read. *)
Definition toyota_info_extended : pydict :=
  (str "sector", PyStr (str "Consumer Cyclical")) ::
  toyota_info ++ [ (str "fullTimeEmployees", PyInt 375235) ].

(** A response whose dividend yield is text. *)
Definition text_info : pydict :=
  [ (str "dividendYield", PyStr (str "Infinity")) ].

(** A provider whose lookup raises with a Japanese message. *)
Definition data_error : pyexn := mkExn "Exception" [0x30c7; 0x30fc; 0x30bf]%N.

Definition failing_ticker_info (yahoo_symbol : pystr) : outcome pydict :=
  Raised data_error.

(** A standard output that takes every text. *)
Definition accepting_stdout (text : pystr) : option pyexn := None.

Definition is_surrogate (c : N) : bool := ((0xD800 <=? c) && (c <=? 0xDFFF))%N.

(** A standard output that refuses the lone surrogates, as a strict
    UTF-8 stream does; the message stands for the one of the codec. *)
Definition strict_stdout (text : pystr) : option pyexn :=
  if existsb is_surrogate text
  then Some (mkExn "UnicodeEncodeError" (str "surrogates not allowed"))
  else None.

(** A response whose market capitalization has 4301 digits. *)
Definition long_int_info : pydict :=
  [ (str "marketCap", PyInt (10 ^ 4300)) ].

(** Providers that return one response for every symbol. *)
Definition toyota_ticker_info (yahoo_symbol : pystr) : outcome pydict :=
  Returned toyota_info.

Definition long_int_ticker_info (yahoo_symbol : pystr) : outcome pydict :=
  Returned long_int_info.

(** A command-line argument with an undecodable byte, which reaches the
    script as a lone surrogate. *)
Definition surrogate_symbol : pystr := str "7203.T" ++ [0xDC80%N].

(** * Properties *)

(** ** Strings *)

Lemma str_eqb_eq (a b : pystr) : str_eqb a b = true <-> a = b.
Proof.
  revert b; induction a as [|x a IH]; intros [|y b]; simpl;
    try (split; [discriminate | congruence]); try tauto.
  rewrite andb_true_iff, N.eqb_eq, IH.
  split; [intros [-> ->]; reflexivity | intros [= -> ->]; auto].
Qed.

Lemma str_startswith_spec (p s : pystr) :
  str_startswith p s = true <-> exists t, s = p ++ t.
Proof.
  revert s; induction p as [|x p IH]; intros s; simpl.
  - split; [intros _; exists s; reflexivity | reflexivity].
  - destruct s as [|y s].
    + split; [discriminate | intros [t H]; discriminate H].
    + rewrite andb_true_iff, N.eqb_eq, IH. split.
      * intros [-> [t ->]]. exists t. reflexivity.
      * intros [t [= -> ->]]. split; [reflexivity | exists t; reflexivity].
Qed.

Lemma str_contains_spec (p s : pystr) :
  str_contains p s = true <-> exists a b, s = a ++ p ++ b.
Proof.
  induction s as [|y s IH].
  - simpl. rewrite orb_false_r, str_startswith_spec. split.
    + intros [t H]. exists [], t. exact H.
    + intros [a [b H]]. destruct a as [|x a]; [| discriminate H].
      exists b. exact H.
  - cbn [str_contains]. rewrite orb_true_iff, str_startswith_spec, IH. split.
    + intros [[t H] | [a [b H]]].
      * exists [], t. exact H.
      * exists (y :: a), b. rewrite H. reflexivity.
    + intros [[|x a] [b H]].
      * left. exists b. exact H.
      * right. injection H as -> ->. exists a, b. reflexivity.
Qed.

Lemma str_endswith_spec (p s : pystr) :
  str_endswith p s = true <-> exists a, s = a ++ p.
Proof.
  unfold str_endswith. rewrite str_startswith_spec. split.
  - intros [t H]. exists (rev t).
    rewrite <- (rev_involutive s), H, rev_app_distr, rev_involutive.
    reflexivity.
  - intros [a ->]. exists (rev a). apply rev_app_distr.
Qed.

Lemma str_endswith_contains (p s : pystr) :
  str_endswith p s = true -> str_contains p s = true.
Proof.
  rewrite str_endswith_spec, str_contains_spec.
  intros [a ->]. exists a, []. rewrite app_nil_r. reflexivity.
Qed.

(** ** Symbol normalization *)

(** C3, as stated with the suffix read as an ending, fails: ["RY.TO"]
    does not end in [".T"], yet it contains [".T"] and is looked up
    unchanged. *)
Lemma yahoo_symbol_suffix_counterexample :
  str_endswith (str ".T") (str "RY.TO") = false /\
  yahoo_symbol (str "RY.TO") = str "RY.TO" /\
  yahoo_symbol (str "RY.TO") <> str "RY.TO" ++ str ".T".
Proof.
  split; [reflexivity | split; [reflexivity | discriminate]].
Qed.

(** ** Field mapping *)

Lemma financial_data_inv symbol info r :
  financial_data symbol info = Returned r ->
  exists dy roe om pm,
    percent (info_get info "dividendYield") = Returned dy /\
    percent (info_get info "returnOnEquity") = Returned roe /\
    percent (info_get info "operatingMargins") = Returned om /\
    percent (info_get info "profitMargins") = Returned pm /\
    r = mapped symbol info dy roe om pm.
Proof.
  unfold financial_data. cbn [bind ret Monad_outcome].
  destruct (percent (info_get info "dividendYield")) as [dy|]; [|discriminate].
  destruct (percent (info_get info "returnOnEquity")) as [roe|]; [|discriminate].
  destruct (percent (info_get info "operatingMargins")) as [om|]; [|discriminate].
  destruct (percent (info_get info "profitMargins")) as [pm|]; [|discriminate].
  intros [= <-]. exists dy, roe, om, pm. repeat split.
Qed.

Lemma financial_data_intro symbol info dy roe om pm :
  percent (info_get info "dividendYield") = Returned dy ->
  percent (info_get info "returnOnEquity") = Returned roe ->
  percent (info_get info "operatingMargins") = Returned om ->
  percent (info_get info "profitMargins") = Returned pm ->
  financial_data symbol info = Returned (mapped symbol info dy roe om pm).
Proof.
  intros H1 H2 H3 H4. unfold financial_data. cbn [bind ret Monad_outcome].
  rewrite H1, H2, H3, H4. reflexivity.
Qed.

Lemma float_of_int_100 : float_of_int 100 = Returned hundred.
Proof. reflexivity. Qed.

Lemma py_mul_float f :
  py_mul (PyFloat f) 100 = Returned (PyFloat (float_mul f hundred)).
Proof. unfold py_mul. rewrite float_of_int_100. reflexivity. Qed.

Lemma py_mul_not_None v n y : py_mul v n = Returned y -> y <> PyNone.
Proof.
  destruct v; simpl; try discriminate; try (intros [= <-]; discriminate).
  destruct (float_of_int n); simpl; [intros [= <-]|]; discriminate.
Qed.

Lemma percent_truthy x : truthy x = true -> percent x = py_mul x 100.
Proof. unfold percent. intros ->. reflexivity. Qed.

Lemma percent_falsy x : truthy x = false -> percent x = Returned PyNone.
Proof. unfold percent. intros ->. reflexivity. Qed.

Lemma percent_None_iff x y :
  percent x = Returned y -> (y = PyNone <-> truthy x = false).
Proof.
  unfold percent. destruct (truthy x) eqn:E.
  - intros H. apply py_mul_not_None in H. split; [tauto | discriminate].
  - intros [= <-]. tauto.
Qed.

Lemma percent_number_returns x :
  number_or_None x = true -> exists y, percent x = Returned y.
Proof.
  unfold percent. destruct x as [| |z|f| | |]; try discriminate; intros _.
  - simpl. eauto.
  - destruct (truthy (PyInt z)); simpl; eauto.
  - destruct (truthy (PyFloat f)); [rewrite py_mul_float|]; eauto.
Qed.

(** C2, as stated, fails: a dividend yield of [0.0] is present in the
    response, and the record holds [None] for it. *)
Lemma percent_zero_counterexample :
  let info := [ (str "dividendYield", PyFloat (S754_zero false)) ] in
  info_get info "dividendYield" <> PyNone /\
  exists r, financial_data (str "7203") info = Returned r /\
            dict_lookup r (str "dividendYield") = Some PyNone.
Proof.
  split; [discriminate | eexists; split; reflexivity].
Qed.

(** C2 (amended): whenever the four fractions are numbers or absent the
    mapping returns a record; and in every record the mapping returns,
    each percentage field is the fraction times 100 when the fraction is
    truthy (present and not zero), and is [None] exactly when the
    fraction is absent or falsy (zero). *)
Theorem percent_fields_scaled (symbol : pystr) (info : pydict) :
  ((forall out key, In (out, key) percent_fields ->
      number_or_None (info_get info key) = true) ->
   exists r, financial_data symbol info = Returned r) /\
  (forall r, financial_data symbol info = Returned r ->
   forall out key, In (out, key) percent_fields ->
     let x := info_get info key in
     exists y, dict_lookup r (str out) = Some y /\
       (truthy x = true -> py_mul x 100 = Returned y) /\
       (forall z, x = PyInt z -> z <> 0 -> y = PyInt (z * 100)) /\
       (forall f, x = PyFloat f -> truthy x = true ->
                  y = PyFloat (float_mul f hundred)) /\
       (y = PyNone <-> truthy x = false)).
Proof.
  split.
  - intros H.
    destruct (percent_number_returns (info_get info "dividendYield")) as [dy Hdy];
      [apply (H "dividendYield"%string); simpl; auto|].
    destruct (percent_number_returns (info_get info "returnOnEquity")) as [roe Hroe];
      [apply (H "roe"%string); simpl; auto|].
    destruct (percent_number_returns (info_get info "operatingMargins")) as [om Hom];
      [apply (H "operatingMargin"%string); simpl; auto|].
    destruct (percent_number_returns (info_get info "profitMargins")) as [pm Hpm];
      [apply (H "profitMargin"%string); simpl; auto 6|].
    eexists. apply financial_data_intro; eassumption.
  - intros r Hr out key Hin x.
    destruct (financial_data_inv _ _ _ Hr)
      as (dy & roe & om & pm & Hdy & Hroe & Hom & Hpm & ->).
    assert (Hgen : forall y, percent x = Returned y ->
      (truthy x = true -> py_mul x 100 = Returned y) /\
      (forall z, x = PyInt z -> z <> 0 -> y = PyInt (z * 100)) /\
      (forall f, x = PyFloat f -> truthy x = true ->
                 y = PyFloat (float_mul f hundred)) /\
      (y = PyNone <-> truthy x = false)).
    { intros y Hy. repeat split.
      - intros Ht. rewrite <- Hy. symmetry. apply percent_truthy, Ht.
      - intros z Hz Hnz. rewrite Hz in Hy. unfold percent in Hy. simpl in Hy.
        destruct (Z.eqb_spec z 0); [contradiction|].
        simpl in Hy. congruence.
      - intros f Hf Ht. rewrite percent_truthy in Hy by exact Ht.
        rewrite Hf, py_mul_float in Hy. congruence.
      - apply (percent_None_iff x y Hy).
      - apply (percent_None_iff x y Hy). }
    simpl in Hin.
    destruct Hin as [[= <- <-] | [[= <- <-] | [[= <- <-] | [[= <- <-] | []]]]].
    + exists dy. split; [reflexivity | apply Hgen, Hdy].
    + exists roe. split; [reflexivity | apply Hgen, Hroe].
    + exists om. split; [reflexivity | apply Hgen, Hom].
    + exists pm. split; [reflexivity | apply Hgen, Hpm].
Qed.

Lemma truthy_present v : truthy v = true -> present v = true.
Proof. destruct v; simpl; auto. Qed.

(** C4, as stated, fails: a trailing P/E of [0.0] is present in the
    response, and [per] is the forward P/E. *)
Lemma per_zero_counterexample :
  let info := [ (str "trailingPE", PyFloat (S754_zero false));
                (str "forwardPE", PyInt 12) ] in
  present (info_get info "trailingPE") = true /\
  exists r, financial_data (str "7203") info = Returned r /\
            dict_lookup r (str "per") = Some (PyInt 12) /\
            dict_lookup r (str "per") <> Some (info_get info "trailingPE").
Proof.
  split; [reflexivity | eexists; split; [reflexivity | split]].
  - reflexivity.
  - discriminate.
Qed.

(** C4 (amended): in every record the mapping returns, [per] is the
    trailing P/E when that is truthy (present and not zero); otherwise
    it is whatever the response holds for the forward P/E: that value
    when present, [None] when absent. *)
Theorem per_trailing_or_forward (symbol : pystr) (info : pydict) (r : pydict) :
  financial_data symbol info = Returned r ->
  let trailing := info_get info "trailingPE" in
  let forward := info_get info "forwardPE" in
  exists per, dict_lookup r (str "per") = Some per /\
    (truthy trailing = true -> per = trailing) /\
    (truthy trailing = false -> per = forward) /\
    (present trailing = false -> present forward = false -> per = PyNone).
Proof.
  intros Hr trailing forward.
  destruct (financial_data_inv _ _ _ Hr)
    as (dy & roe & om & pm & _ & _ & _ & _ & ->).
  exists (py_or trailing forward). split; [reflexivity|].
  unfold py_or. repeat split.
  - intros ->. reflexivity.
  - intros ->. reflexivity.
  - intros Ht Hf. destruct trailing; try discriminate.
    destruct forward; try discriminate. reflexivity.
Qed.

(** C5, as stated, fails: an empty long name is present in the response,
    and [companyName] is the short name. *)
Lemma companyName_empty_counterexample :
  let info := [ (str "longName", PyStr []);
                (str "shortName", PyStr (str "TOYOTA")) ] in
  present (info_get info "longName") = true /\
  exists r, financial_data (str "7203") info = Returned r /\
            dict_lookup r (str "companyName") = Some (PyStr (str "TOYOTA")) /\
            dict_lookup r (str "companyName") <> Some (info_get info "longName").
Proof.
  split; [reflexivity | eexists; split; [reflexivity | split]].
  - reflexivity.
  - discriminate.
Qed.

(** C5 (amended): in every record the mapping returns, [companyName] is
    the long name when that is truthy (present and not empty), otherwise
    the short name when that is truthy, otherwise the input symbol. *)
Theorem companyName_long_short_symbol
    (symbol : pystr) (info : pydict) (r : pydict) :
  financial_data symbol info = Returned r ->
  let long := info_get info "longName" in
  let short := info_get info "shortName" in
  exists name, dict_lookup r (str "companyName") = Some name /\
    (truthy long = true -> name = long) /\
    (truthy long = false -> truthy short = true -> name = short) /\
    (truthy long = false -> truthy short = false -> name = PyStr symbol).
Proof.
  intros Hr long short.
  destruct (financial_data_inv _ _ _ Hr)
    as (dy & roe & om & pm & _ & _ & _ & _ & ->).
  exists (py_or long (py_or short (PyStr symbol))). split; [reflexivity|].
  unfold py_or. repeat split.
  - intros ->. reflexivity.
  - intros -> ->. reflexivity.
  - intros -> ->. destruct symbol; reflexivity.
Qed.

(** ** Runs of the process *)

Section Runs.

Variable float_repr : spec_float -> pystr.
Variable stdout_error : pystr -> option pyexn.
Variable ticker_info : pystr -> outcome pydict.

Lemma error_data_dumps e symbol :
  json_dumps float_repr false (PyDict (error_data e symbol)) =
    Returned (json_text float_repr false (PyDict (error_data e symbol))).
Proof. reflexivity. Qed.

Lemma get_financial_data_success symbol info r t :
  ticker_info (yahoo_symbol symbol) = Returned info ->
  financial_data symbol info = Returned r ->
  emit_error float_repr stdout_error r = None ->
  get_financial_data float_repr stdout_error ticker_info symbol t =
    (Returned 0,
     (t ++ [Lookup (yahoo_symbol symbol)]) ++
     [Print stdout (line float_repr false r)]).
Proof.
  intros Hinfo Hr He. unfold get_financial_data.
  cbn [catch Exception_IO bind Monad_IO ret].
  unfold Ticker_info, lift. rewrite Hinfo, Hr.
  unfold emit_error in He.
  destruct (json_dumps float_repr false (PyDict r)) as [text|] eqn:Ht;
    [|discriminate He].
  unfold json_dumps in Ht.
  destruct (has_long_int (PyDict r)); [discriminate Ht|].
  injection Ht as <-.
  unfold print, write_error. rewrite He. reflexivity.
Qed.

Lemma get_financial_data_failure symbol e t :
  ticker_info (yahoo_symbol symbol) = Raised e \/
  (exists info, ticker_info (yahoo_symbol symbol) = Returned info /\
                financial_data symbol info = Raised e) ->
  get_financial_data float_repr stdout_error ticker_info symbol t =
    (Returned 1,
     (t ++ [Lookup (yahoo_symbol symbol)]) ++
     [Print stderr (line float_repr false (error_data e symbol))]).
Proof.
  intros H. unfold get_financial_data.
  cbn [catch Exception_IO bind Monad_IO ret].
  unfold Ticker_info, lift.
  destruct H as [He | [info [Hinfo He]]].
  - rewrite He, error_data_dumps. reflexivity.
  - rewrite Hinfo, He, error_data_dumps. reflexivity.
Qed.

(** The lookup and the mapping return, and the record cannot be
    printed: the handler takes over. *)
Lemma get_financial_data_emit_failure symbol info r e t :
  ticker_info (yahoo_symbol symbol) = Returned info ->
  financial_data symbol info = Returned r ->
  emit_error float_repr stdout_error r = Some e ->
  get_financial_data float_repr stdout_error ticker_info symbol t =
    (Returned 1,
     (t ++ [Lookup (yahoo_symbol symbol)]) ++
     [Print stderr (line float_repr false (error_data e symbol))]).
Proof.
  intros Hinfo Hr He. unfold get_financial_data.
  cbn [catch Exception_IO bind Monad_IO ret].
  unfold Ticker_info, lift. rewrite Hinfo, Hr.
  unfold emit_error in He.
  destruct (json_dumps float_repr false (PyDict r)) as [text|e'].
  - unfold print at 1. unfold write_error at 1. rewrite He.
    rewrite error_data_dumps. reflexivity.
  - injection He as ->. rewrite error_data_dumps. reflexivity.
Qed.

Lemma run_one_argument prog symbol :
  run float_repr stdout_error ticker_info [prog; symbol] =
    get_financial_data float_repr stdout_error ticker_info symbol [].
Proof. reflexivity. Qed.

Lemma error_record_text e symbol :
  line float_repr false (error_data e symbol) =
    str "{" ++ encode_str false (str "error") ++ str ": true, " ++
    encode_str false (str "message") ++ str ": " ++
    encode_str false (exn_str e) ++ str ", " ++
    encode_str false (str "symbol") ++ str ": " ++
    encode_str false symbol ++ str "}" ++ [10%N].
Proof.
  unfold line, error_data.
  cbn [json_text map join fst snd].
  repeat rewrite <- app_assoc. reflexivity.
Qed.

(** Every run on one argument starts with the lookup of the normalized
    symbol and writes one line. *)
Lemma get_financial_data_trace symbol :
  exists file text,
    snd (get_financial_data float_repr stdout_error ticker_info symbol []) =
      [ Lookup (yahoo_symbol symbol); Print file text ].
Proof.
  destruct (ticker_info (yahoo_symbol symbol)) as [info|e] eqn:Hinfo.
  - destruct (financial_data symbol info) as [r|e] eqn:Hr.
    + destruct (emit_error float_repr stdout_error r) as [e|] eqn:He.
      * rewrite (get_financial_data_emit_failure symbol info r e []
                   Hinfo Hr He).
        eexists _, _. reflexivity.
      * rewrite (get_financial_data_success symbol info r [] Hinfo Hr He).
        eexists _, _. reflexivity.
    + rewrite (get_financial_data_failure symbol e []);
        [eexists _, _; reflexivity|].
      right. exists info. split; assumption.
  - rewrite (get_financial_data_failure symbol e [] (or_introl Hinfo)).
    eexists _, _. reflexivity.
Qed.

(** C3 (amended): the symbol of the provider lookup is [yahoo_symbol];
    a symbol in which [".T"] occurs nowhere is looked up with [".T"]
    appended; a symbol in which [".T"] occurs anywhere, in particular
    one that ends in [".T"], is looked up unchanged. *)
Theorem yahoo_symbol_normalization (prog symbol : pystr) :
  (exists file text,
     snd (run float_repr stdout_error ticker_info [prog; symbol]) =
       [ Lookup (yahoo_symbol symbol); Print file text ]) /\
  (str_contains (str ".T") symbol = false ->
   yahoo_symbol symbol = symbol ++ str ".T") /\
  (str_contains (str ".T") symbol = true -> yahoo_symbol symbol = symbol) /\
  (str_endswith (str ".T") symbol = true -> yahoo_symbol symbol = symbol).
Proof.
  split; [rewrite run_one_argument; apply get_financial_data_trace|].
  unfold yahoo_symbol. repeat split.
  - intros ->. reflexivity.
  - intros ->. reflexivity.
  - intros H. rewrite (str_endswith_contains _ _ H). reflexivity.
Qed.

(** C1: when the provider lookup raises [e], or the lookup returns and
    the field mapping raises [e], the run is one lookup followed by one
    line on standard error, the error record with [str(e)] as message
    and the input symbol; the exit status is 1 and nothing is written
    to standard output. *)
Theorem retrieval_failure_emits_error_record
    (prog symbol : pystr) (e : pyexn) :
  ticker_info (yahoo_symbol symbol) = Raised e \/
  (exists info, ticker_info (yahoo_symbol symbol) = Returned info /\
                financial_data symbol info = Raised e) ->
  run float_repr stdout_error ticker_info [prog; symbol] =
    (Returned 1,
     [ Lookup (yahoo_symbol symbol);
       Print stderr (line float_repr false (error_data e symbol)) ]) /\
  error_data e symbol =
    [ (str "error", PyBool true); (str "message", PyStr (exn_str e));
      (str "symbol", PyStr symbol) ] /\
  (forall text,
     ~ In (Print stdout text)
          (snd (run float_repr stdout_error ticker_info [prog; symbol]))).
Proof.
  intros H. rewrite run_one_argument.
  rewrite (get_financial_data_failure symbol e [] H). simpl.
  split; [reflexivity | split; [reflexivity|]].
  intros text [Hin | [Hin | []]]; discriminate Hin.
Qed.

(** C10: when the lookup raises, the [symbol] field of the error record
    is the command-line input, not the symbol that was looked up: for an
    input in which [".T"] does not occur the lookup is made with [".T"]
    appended, and the record reports the input without it. *)
Theorem error_record_reports_input_symbol (prog symbol : pystr) (e : pyexn) :
  ticker_info (yahoo_symbol symbol) = Raised e ->
  exists record,
    snd (run float_repr stdout_error ticker_info [prog; symbol]) =
      [ Lookup (yahoo_symbol symbol);
        Print stderr (line float_repr false record) ] /\
    dict_lookup record (str "symbol") = Some (PyStr symbol) /\
    (exists head,
       line float_repr false record =
         head ++ encode_str false (str "symbol") ++ str ": " ++
         encode_str false symbol ++ str "}" ++ [10%N]) /\
    (str_contains (str ".T") symbol = false ->
       yahoo_symbol symbol = symbol ++ str ".T" /\
       yahoo_symbol symbol <> symbol).
Proof.
  intros He. exists (error_data e symbol).
  rewrite run_one_argument.
  rewrite (get_financial_data_failure symbol e [] (or_introl He)).
  split; [reflexivity | split; [reflexivity | split]].
  - rewrite error_record_text. eexists.
    repeat rewrite app_assoc. reflexivity.
  - intros Hc. unfold yahoo_symbol. rewrite Hc. split; [reflexivity|].
    intros Heq. apply (f_equal (@List.length N)) in Heq.
    rewrite length_app in Heq. simpl in Heq. lia.
Qed.

Lemma record_line_symbol symbol info r :
  financial_data symbol info = Returned r ->
  dict_lookup r (str "symbol") = Some (PyStr symbol) /\
  exists rest,
    line float_repr false r =
      str "{" ++ encode_str false (str "symbol") ++ str ": " ++
      encode_str false symbol ++ str ", " ++ rest.
Proof.
  intros Hr.
  destruct (financial_data_inv _ _ _ Hr)
    as (dy & roe & om & pm & _ & _ & _ & _ & ->).
  split; [reflexivity|].
  unfold line, mapped. cbn [json_text map join fst snd].
  eexists. repeat rewrite <- app_assoc. reflexivity.
Qed.

(** C7: a line on standard output is always the record of a run whose
    lookup, made with the normalized symbol, and whose mapping
    returned; the [symbol] field of that record is the input symbol as
    given, and the line starts with that field.  Such a line is written,
    with status 0, whenever the lookup and the mapping return and
    printing the record does not raise. *)
Theorem record_symbol_is_input (prog symbol : pystr) :
  (forall text,
     In (Print stdout text)
        (snd (run float_repr stdout_error ticker_info [prog; symbol])) ->
     exists info r,
       ticker_info (yahoo_symbol symbol) = Returned info /\
       financial_data symbol info = Returned r /\
       run float_repr stdout_error ticker_info [prog; symbol] =
         (Returned 0, [ Lookup (yahoo_symbol symbol); Print stdout text ]) /\
       text = line float_repr false r /\
       dict_lookup r (str "symbol") = Some (PyStr symbol) /\
       exists rest,
         text =
           str "{" ++ encode_str false (str "symbol") ++ str ": " ++
           encode_str false symbol ++ str ", " ++ rest) /\
  (forall info r,
     ticker_info (yahoo_symbol symbol) = Returned info ->
     financial_data symbol info = Returned r ->
     emit_error float_repr stdout_error r = None ->
     run float_repr stdout_error ticker_info [prog; symbol] =
       (Returned 0,
        [ Lookup (yahoo_symbol symbol);
          Print stdout (line float_repr false r) ]) /\
     dict_lookup r (str "symbol") = Some (PyStr symbol)).
Proof.
  rewrite run_one_argument. split.
  - intros text Hin.
    destruct (ticker_info (yahoo_symbol symbol)) as [info|e] eqn:Hinfo.
    + destruct (financial_data symbol info) as [r|e] eqn:Hr.
      * destruct (emit_error float_repr stdout_error r) as [e|] eqn:He.
        -- rewrite (get_financial_data_emit_failure symbol info r e []
                      Hinfo Hr He) in Hin.
           destruct Hin as [Hin | [Hin | []]]; discriminate Hin.
        -- rewrite (get_financial_data_success symbol info r [] Hinfo Hr He)
             in Hin |- *.
           destruct Hin as [Hin | [Hin | []]]; [discriminate Hin|].
           injection Hin as <-.
           destruct (record_line_symbol symbol info r Hr) as [Hsym Hpre].
           exists info, r. repeat split; assumption.
      * rewrite (get_financial_data_failure symbol e []) in Hin
          by (right; exists info; split; assumption).
        destruct Hin as [Hin | [Hin | []]]; discriminate Hin.
    + rewrite (get_financial_data_failure symbol e [] (or_introl Hinfo))
        in Hin.
      destruct Hin as [Hin | [Hin | []]]; discriminate Hin.
  - intros info r Hinfo Hr He.
    rewrite (get_financial_data_success symbol info r [] Hinfo Hr He).
    split; [reflexivity | apply (record_line_symbol symbol info r Hr)].
Qed.

(** C6: an invocation with no argument, or with two or more, is one
    line on standard error, the usage error, which has an [error] and a
    [message] field and no [symbol] field; the exit status is 1 and no
    lookup is made. *)
Theorem wrong_argument_count_is_usage_error
    (prog : pystr) (args : list pystr) :
  List.length args = 0%nat \/ (2 <= List.length args)%nat ->
  run float_repr stdout_error ticker_info (prog :: args) =
    (Returned 1, [ Print stderr (line float_repr true usage_error) ]) /\
  usage_error =
    [ (str "error", PyBool true); (str "message", PyStr usage_message) ] /\
  dict_lookup usage_error (str "symbol") = None /\
  (forall s,
     ~ In (Lookup s) (snd (run float_repr stdout_error ticker_info (prog :: args)))).
Proof.
  intros H.
  assert (Hrun : run float_repr stdout_error ticker_info (prog :: args) =
      (Returned 1, [ Print stderr (line float_repr true usage_error) ])).
  { unfold run, main. cbn [List.length].
    destruct args as [|a [|b args]]; [reflexivity | | reflexivity].
    simpl in H. lia. }
  rewrite Hrun. repeat split.
  intros s [Hin | []]. discriminate Hin.
Qed.

(** The text after [json.dumps(..., ensure_ascii=False)] keeps every
    non-ASCII character of a string, in place. *)
Lemma hex_digit_ascii n : (n < 16)%N -> non_ascii (hex_digit n) = false.
Proof.
  intros H. unfold non_ascii, hex_digit. apply N.leb_gt.
  destruct (N.ltb_spec n 10); lia.
Qed.

Lemma u_escape_ascii n : filter non_ascii (u_escape n) = [].
Proof.
  unfold u_escape, hex4. rewrite filter_app.
  replace (filter non_ascii [92; 117]%N) with (@nil N) by reflexivity.
  cbn [filter app].
  rewrite !hex_digit_ascii by (apply N.mod_lt; lia). reflexivity.
Qed.

Lemma ESCAPE_DCT_ascii c e :
  ESCAPE_DCT c = Some e -> filter non_ascii e = [] /\ non_ascii c = false.
Proof.
  unfold ESCAPE_DCT.
  repeat match goal with
         | |- context [N.eqb c ?k] =>
             destruct (N.eqb_spec c k); [subst; intros [= <-]; split; reflexivity|]
         end.
  destruct (N.ltb_spec c 32); [|discriminate].
  intros [= <-]. split; [apply u_escape_ascii | apply N.leb_gt; lia].
Qed.

Lemma escape_char_non_ascii c :
  filter non_ascii (escape_char c) = filter non_ascii [c].
Proof.
  unfold escape_char. destruct (ESCAPE_DCT c) as [e|] eqn:E; [|reflexivity].
  destruct (ESCAPE_DCT_ascii c e E) as [-> Hc]. simpl. rewrite Hc. reflexivity.
Qed.

Lemma py_encode_basestring_literal s :
  filter non_ascii (py_encode_basestring s) = filter non_ascii s.
Proof.
  unfold py_encode_basestring. rewrite !filter_app. simpl.
  rewrite app_nil_r.
  induction s as [|c s IH]; [reflexivity|].
  cbn [flat_map]. rewrite filter_app, IH, escape_char_non_ascii.
  change (c :: s) with ([c] ++ s). rewrite filter_app. reflexivity.
Qed.

(** C9 at the usage error: the message is Japanese text, and the line
    written for it has no non-ASCII character; each character of the
    message is written as a [\uXXXX] escape.  The two other [print]
    calls of the script pass [ensure_ascii=False]; this one does not. *)
Theorem usage_error_is_escaped :
  run float_repr stdout_error ticker_info [str "fetch_financials.py"] =
    (Returned 1, [ Print stderr (line float_repr true usage_error) ]) /\
  line float_repr true usage_error =
    str "{" ++ [quote] ++ str "error" ++ [quote] ++ str ": true, " ++
    [quote] ++ str "message" ++ [quote] ++ str ": " ++ [quote] ++
    str "\u9298\u67c4\u30b3\u30fc\u30c9\u3092\u6307\u5b9a\u3057\u3066\u304f\u3060\u3055\u3044" ++
    [quote] ++ str "}" ++ [10%N] /\
  filter non_ascii usage_message = usage_message /\
  filter non_ascii (line float_repr true usage_error) = [].
Proof.
  split; [reflexivity | split; [| split]]; vm_compute; reflexivity.
Qed.

End Runs.

(** ** Output encoding *)

Lemma pyval_nested_ind (P : pyval -> Prop) :
  P PyNone -> (forall b, P (PyBool b)) -> (forall z, P (PyInt z)) ->
  (forall f, P (PyFloat f)) -> (forall s, P (PyStr s)) ->
  (forall l, Forall P l -> P (PyList l)) ->
  (forall d, Forall (fun kv => P (snd kv)) d -> P (PyDict d)) ->
  forall v, P v.
Proof.
  intros HN HB HI HF HS HL HD. fix IH 1.
  intros [|b|z|f|s|l|d];
    [exact HN | apply HB | apply HI | apply HF | apply HS | | ].
  - apply HL. revert l. fix IHl 1. intros [|x l]; constructor;
      [apply IH | apply IHl].
  - apply HD. revert d. fix IHd 1. intros [|[k x] d]; constructor;
      [apply IH | apply IHd].
Qed.

Lemma plain_filters s :
  forallb plain s = true ->
  filter non_ascii s = [] /\ filter is_newline s = [].
Proof.
  induction s as [|c s IH]; [split; reflexivity|].
  cbn [forallb filter]. rewrite andb_true_iff. unfold plain at 1.
  rewrite andb_true_iff, !negb_true_iff. intros [[-> ->] Hs].
  apply IH, Hs.
Qed.

Lemma filter_join (q : N -> bool) sep items :
  filter q sep = [] ->
  filter q (join sep items) = flat_map (filter q) items.
Proof.
  intros Hsep. induction items as [|x [|y rest] IH].
  - reflexivity.
  - simpl. rewrite app_nil_r. reflexivity.
  - change (join sep (x :: y :: rest)) with (x ++ sep ++ join sep (y :: rest)).
    rewrite !filter_app, Hsep, IH. reflexivity.
Qed.

Lemma filter_bracket (q : N -> bool) opening closing sep items :
  filter q opening = [] -> filter q closing = [] -> filter q sep = [] ->
  filter q (opening ++ join sep items ++ closing) =
    flat_map (filter q) items.
Proof.
  intros Ho Hc Hs. rewrite !filter_app, Ho, Hc, filter_join by exact Hs.
  rewrite app_nil_r. reflexivity.
Qed.

Lemma filter_item (q : N -> bool) k text :
  filter q (str ": ") = [] ->
  filter q (encode_str false k ++ str ": " ++ text) =
    filter q (py_encode_basestring k) ++ filter q text.
Proof. intros Hc. rewrite !filter_app, Hc. reflexivity. Qed.

Lemma string_of_uint_plain d :
  forallb plain
    (map N_of_ascii (list_ascii_of_string (NilEmpty.string_of_uint d))) = true.
Proof. induction d; simpl; auto. Qed.

Lemma int_text_plain z : forallb plain (int_text z) = true.
Proof.
  unfold int_text, NilZero.string_of_int, NilZero.string_of_uint.
  destruct (Z.to_int z) as [[]|[]]; try apply string_of_uint_plain;
    try reflexivity;
    cbn [list_ascii_of_string map forallb]; apply string_of_uint_plain.
Qed.

Lemma escape_char_no_newline c : filter is_newline (escape_char c) = [].
Proof.
  unfold escape_char, ESCAPE_DCT.
  repeat match goal with
         | |- context [N.eqb c ?k] =>
             destruct (N.eqb_spec c k); [subst; reflexivity|]
         end.
  destruct (N.ltb_spec c 32).
  - unfold u_escape, hex4. cbn [app filter].
    replace (is_newline 92) with false by reflexivity.
    replace (is_newline 117) with false by reflexivity.
    assert (Hd : forall k, is_newline (hex_digit k) = false).
    { intros k. unfold is_newline, hex_digit. apply N.eqb_neq.
      destruct (N.ltb_spec k 10); lia. }
    rewrite !Hd. reflexivity.
  - cbn [filter]. unfold is_newline.
    destruct (N.eqb_spec c 10); [contradiction | reflexivity].
Qed.

Lemma py_encode_basestring_no_newline s :
  filter is_newline (py_encode_basestring s) = [].
Proof.
  unfold py_encode_basestring. rewrite !filter_app. simpl.
  rewrite app_nil_r.
  induction s as [|c s IH]; [reflexivity|].
  cbn [flat_map]. rewrite filter_app, IH, escape_char_no_newline. reflexivity.
Qed.

Section Encoding.

Variable float_repr : spec_float -> pystr.

(** [float.__repr__] writes digits, a sign, a point and an exponent. *)
Hypothesis float_repr_plain : forall f, forallb plain (float_repr f) = true.

Lemma floatstr_plain f : forallb plain (floatstr float_repr f) = true.
Proof. destruct f as [s|[|]| |s m e]; try reflexivity; apply float_repr_plain. Qed.

(** With [ensure_ascii=False] the text holds the non-ASCII characters
    of the value as they are, and no others. *)
Lemma json_text_literal v :
  filter non_ascii (json_text float_repr false v) = non_ascii_chars v.
Proof.
  induction v as [|b|z|f|s|l IH|d IH] using pyval_nested_ind.
  - reflexivity.
  - destruct b; reflexivity.
  - apply plain_filters, int_text_plain.
  - apply plain_filters, floatstr_plain.
  - apply py_encode_basestring_literal.
  - cbn [json_text non_ascii_chars].
    rewrite filter_bracket by reflexivity.
    induction IH as [|x l Hx _ IHl]; [reflexivity|].
    cbn [map flat_map]. rewrite Hx, IHl. reflexivity.
  - cbn [json_text non_ascii_chars].
    rewrite filter_bracket by reflexivity.
    induction IH as [|[k x] d Hx _ IHd]; [reflexivity|].
    cbn [map flat_map fst snd] in *.
    rewrite filter_item by reflexivity.
    rewrite Hx, IHd, py_encode_basestring_literal. reflexivity.
Qed.

(** With [ensure_ascii=False] the text has no newline. *)
Lemma json_text_no_newline v :
  filter is_newline (json_text float_repr false v) = [].
Proof.
  induction v as [|b|z|f|s|l IH|d IH] using pyval_nested_ind.
  - reflexivity.
  - destruct b; reflexivity.
  - apply plain_filters, int_text_plain.
  - apply plain_filters, floatstr_plain.
  - apply py_encode_basestring_no_newline.
  - cbn [json_text].
    rewrite filter_bracket by reflexivity.
    induction IH as [|x l Hx _ IHl]; [reflexivity|].
    cbn [map flat_map]. rewrite Hx, IHl. reflexivity.
  - cbn [json_text].
    rewrite filter_bracket by reflexivity.
    induction IH as [|[k x] d Hx _ IHd]; [reflexivity|].
    cbn [map flat_map fst snd] in *.
    rewrite filter_item by reflexivity.
    rewrite Hx, IHd, py_encode_basestring_no_newline. reflexivity.
Qed.

(** The two lines [get_financial_data] can write, the record on
    standard output and the error record on standard error, are each one
    line that keeps the non-ASCII characters of its strings. *)
Lemma line_false_single_literal record :
  filter is_newline (line float_repr false record) = [10%N] /\
  filter non_ascii (line float_repr false record) =
    non_ascii_chars (PyDict record).
Proof.
  unfold line. rewrite !filter_app, json_text_no_newline, json_text_literal.
  simpl. rewrite app_nil_r. split; reflexivity.
Qed.

End Encoding.

Lemma sample_float_repr_plain f : forallb plain (sample_float_repr f) = true.
Proof.
  destruct f as [s|s| |[|] m e]; try reflexivity.
  unfold sample_float_repr.
  repeat match goal with
         | |- context [match ?x with _ => _ end] => destruct x; try reflexivity
         end.
Qed.

(** The error record of the second scenario keeps the characters of a
    Japanese message. *)
Lemma error_record_literal_example :
  let e := mkExn "Exception" [0x30c7; 0x30fc; 0x30bf]%N in
  filter non_ascii (line sample_float_repr false (error_data e (str "9999.T")))
    = [0x30c7; 0x30fc; 0x30bf]%N.
Proof.
  intros e.
  rewrite (proj2 (line_false_single_literal sample_float_repr
                    sample_float_repr_plain _)).
  reflexivity.
Qed.

(** ** Finite numbers *)

Lemma digits2_pos_size p : digits2_pos p = Pos.size p.
Proof. induction p; simpl; congruence. Qed.

Lemma digits2_pos_gt p : Zpos p < 2 ^ Zpos (digits2_pos p).
Proof.
  rewrite digits2_pos_size. 
  pose proof (Pos.size_gt p) as H.
  rewrite <- Pos2Z.inj_pow. lia.
Qed.

Lemma digits2_pos_le p k : 0 <= k -> Zpos p < 2 ^ k -> Zpos (digits2_pos p) <= k.
Proof.
  revert k. induction p as [p IH|p IH|]; intros k Hk H; simpl digits2_pos;
    rewrite ?Pos2Z.inj_succ.
  - assert (k <> 0) by (intros ->; simpl in H; lia).
    replace k with (Z.succ (k - 1)) in H by lia.
    rewrite Z.pow_succ_r in H by lia.
    specialize (IH (k - 1)). lia.
  - assert (k <> 0) by (intros ->; simpl in H; lia).
    replace k with (Z.succ (k - 1)) in H by lia.
    rewrite Z.pow_succ_r in H by lia.
    specialize (IH (k - 1)). lia.
  - assert (k <> 0) by (intros ->; simpl in H; lia). lia.
Qed.

Lemma Zdigits2_succ m : 0 <= m -> Zdigits2 (m + 1) <= Zdigits2 m + 1.
Proof.
  intros Hm. destruct m as [|p|p]; [simpl; lia | | lia].
  change (Zpos p + 1) with (Zpos (p + 1)). simpl Zdigits2.
  apply digits2_pos_le; [lia|].
  pose proof (digits2_pos_gt p) as H.
  rewrite Z.pow_add_r by lia. change (2 ^ 1) with 2. lia.
Qed.

Lemma shr_1_digits mrs :
  0 <= shr_m mrs ->
  0 <= shr_m (shr_1 mrs) /\
  Zdigits2 (shr_m (shr_1 mrs)) = Z.max 0 (Zdigits2 (shr_m mrs) - 1).
Proof.
  destruct mrs as [m r s]. cbn [shr_m].
  destruct m as [|[p|p|]|p]; cbn [shr_1 shr_m Zdigits2 digits2_pos];
    rewrite ?Pos2Z.inj_succ; lia.
Qed.

Lemma iter_shr_1_digits n mrs :
  0 <= shr_m mrs ->
  0 <= shr_m (iter_pos shr_1 n mrs) /\
  Zdigits2 (shr_m (iter_pos shr_1 n mrs)) =
    Z.max 0 (Zdigits2 (shr_m mrs) - Zpos n).
Proof.
  revert mrs. induction n as [n IH|n IH|]; intros mrs H; simpl iter_pos.
  - destruct (shr_1_digits mrs H) as [H1 E1].
    destruct (IH _ H1) as [H2 E2]. destruct (IH _ H2) as [H3 E3].
    split; [exact H3|]. rewrite E3, E2, E1. lia.
  - destruct (IH _ H) as [H2 E2]. destruct (IH _ H2) as [H3 E3].
    split; [exact H3|]. rewrite E3, E2. lia.
  - apply shr_1_digits, H.
Qed.

Lemma Zdigits2_nonneg m : 0 <= Zdigits2 m.
Proof. destruct m; simpl; lia. Qed.

Lemma shr_record_of_loc_m m l : shr_m (shr_record_of_loc m l) = m.
Proof. destruct l as [|[| |]]; reflexivity. Qed.

(** What [shr_fexp] returns: the exponent is the larger of the given
    one and [fexp] of the magnitude, the mantissa stays non-negative and
    loses as many digits as the exponent gained. *)
Lemma shr_fexp_bounds m e l mrs' e' :
  0 <= m ->
  shr_fexp prec emax m e l = (mrs', e') ->
  0 <= shr_m mrs' /\
  e' = Z.max e (fexp prec emax (Zdigits2 m + e)) /\
  Zdigits2 (shr_m mrs') = Z.max 0 (Zdigits2 m - (e' - e)).
Proof.
  intros Hm. pose proof (Zdigits2_nonneg m) as Hd. unfold shr_fexp, shr.
  destruct (fexp prec emax (Zdigits2 m + e) - e) as [|n|n] eqn:En;
    intros [= <- <-]; rewrite ?shr_record_of_loc_m.
  - repeat split; lia.
  - destruct (iter_shr_1_digits n (shr_record_of_loc m l)) as [H1 E1];
      [rewrite shr_record_of_loc_m; exact Hm|].
    rewrite shr_record_of_loc_m in E1.
    repeat split; [exact H1 | lia | rewrite E1; lia].
  - repeat split; lia.
Qed.

Lemma round_nearest_even_bounds m l :
  0 <= m ->
  0 <= round_nearest_even m l /\
  Zdigits2 (round_nearest_even m l) <= Zdigits2 m + 1.
Proof.
  intros Hm. pose proof (Zdigits2_succ m Hm).
  unfold round_nearest_even.
  destruct l as [|[| |]]; try destruct (Z.even m); split; lia.
Qed.

Lemma binary_round_aux_finite sx mx ex lx :
  0 <= mx -> Zdigits2 mx + ex <= 1023 -> ex <= 971 ->
  finite_float (binary_round_aux prec emax sx mx ex lx) = true.
Proof.
  intros Hm Hd He. unfold binary_round_aux.
  destruct (shr_fexp prec emax mx ex lx) as [mrs' e'] eqn:E1.
  destruct (shr_fexp_bounds _ _ _ _ _ Hm E1) as (H1 & He' & Hd').
  destruct (round_nearest_even_bounds (shr_m mrs') (loc_of_shr_record mrs') H1)
    as [H2 Hd2].
  destruct (shr_fexp prec emax _ e' loc_Exact) as [mrs'' e''] eqn:E2.
  destruct (shr_fexp_bounds _ _ _ _ _ H2 E2) as (H3 & He'' & _).
  destruct (shr_m mrs'') as [|m|m]; [reflexivity | | lia].
  unfold fexp, SpecFloat.emin, prec, emax in *.
  replace (e'' <=? 1024 - 53) with true; [reflexivity|].
  symmetry. apply Z.leb_le. lia.
Qed.

Lemma float_mul_hundred_finite f :
  finite_float f = true -> scalable f = true ->
  finite_float (float_mul f hundred) = true.
Proof.
  destruct f as [s|s| |s m e]; try discriminate; [reflexivity|].
  intros _ H. unfold scalable in H. apply Z.leb_le in H.
  unfold float_mul, hundred, SFmul.
  apply binary_round_aux_finite; [lia | | ].
  - unfold Zdigits2.
    assert (Zpos (digits2_pos (m * 7036874417766400)) <= Zpos (digits2_pos m) + 53).
    { apply digits2_pos_le; [lia|].
      pose proof (digits2_pos_gt m). rewrite Z.pow_add_r by lia.
      rewrite Pos2Z.inj_mul.
      assert (7036874417766400 < 2 ^ 53) by reflexivity. nia. }
    lia.
  - pose proof (Pos2Z.is_pos (digits2_pos m)). lia.
Qed.

(** The product is the binary64 product: [0.07 * 100] is
    [7.000000000000001]. *)
Lemma percent_rounds_example :
  percent (PyFloat (S754_finite false 5044031582654956 (-56))) =
    Returned (PyFloat (S754_finite false 7881299347898369 (-50))).
Proof. reflexivity. Qed.

(** The bound on the fractions is needed: [1e307] is a finite float and
    [1e307 * 100] is [inf]. *)
Lemma percent_overflow_example :
  finite_float (S754_finite false 8016673440035891 967) = true /\
  scalable (S754_finite false 8016673440035891 967) = false /\
  percent (PyFloat (S754_finite false 8016673440035891 967)) =
    Returned (PyFloat (S754_infinity false)).
Proof. repeat split. Qed.

Lemma percent_finite x :
  finite_or_None x = true -> scalable_value x = true ->
  exists y, percent x = Returned y /\ finite_or_None y = true /\
            (x = PyNone -> y = PyNone).
Proof.
  unfold percent. destruct x as [| |z|f| | |]; try discriminate; intros Hf Hs.
  - exists PyNone. repeat split.
  - destruct (truthy (PyInt z)); simpl; eexists; repeat split; discriminate.
  - destruct (truthy (PyFloat f)).
    + rewrite py_mul_float. eexists. split; [reflexivity|].
      split; [|discriminate]. simpl. apply float_mul_hundred_finite; assumption.
    + exists PyNone. repeat split.
Qed.

Lemma py_or_finite a b :
  finite_or_None a = true -> finite_or_None b = true ->
  finite_or_None (py_or a b) = true.
Proof. unfold py_or. destruct (truthy a); auto. Qed.

(** C8, as stated, fails: the mapping copies whatever the response
    holds; an empty string under [marketCap] is in the record as it
    is. *)
Lemma numeric_field_empty_string_counterexample :
  let info := [ (str "marketCap", PyStr []) ] in
  exists r, financial_data (str "7203") info = Returned r /\
            In "marketCap"%string numeric_fields /\
            dict_lookup r (str "marketCap") = Some (PyStr []) /\
            finite_or_None (PyStr []) = false.
Proof.
  eexists. split; [reflexivity | split; [simpl; auto | split; reflexivity]].
Qed.

(** C8 (amended): when every value the response holds under a key read
    for a numeric field is absent or a finite number, and every
    percentage fraction is below [2^1016] in magnitude, the mapping
    returns a record whose numeric fields are each a finite number or
    [None]; a copied field is the provider value itself, so an absent
    value stays [None] and is never replaced by zero or by an empty
    string, and so do [per] and the percentage fields. *)
Theorem numeric_fields_finite_or_None (symbol : pystr) (info : pydict) :
  (forall key, In key numeric_keys ->
     finite_or_None (info_get info key) = true) ->
  (forall out key, In (out, key) percent_fields ->
     scalable_value (info_get info key) = true) ->
  exists r, financial_data symbol info = Returned r /\
    (forall out, In out numeric_fields ->
       exists v, dict_lookup r (str out) = Some v /\
                 finite_or_None v = true) /\
    (forall out key, In (out, key) passthrough_fields ->
       dict_lookup r (str out) = Some (info_get info key)) /\
    (info_get info "trailingPE" = PyNone ->
     info_get info "forwardPE" = PyNone ->
       dict_lookup r (str "per") = Some PyNone) /\
    (forall out key, In (out, key) percent_fields ->
       info_get info key = PyNone ->
       dict_lookup r (str out) = Some PyNone).
Proof.
  intros Hfin Hsc.
  destruct (percent_finite (info_get info "dividendYield")) as (dy & Hdy & Fdy & Ndy);
    [apply Hfin; simpl; tauto | apply (Hsc "dividendYield"%string); simpl; tauto |].
  destruct (percent_finite (info_get info "returnOnEquity")) as (roe & Hroe & Froe & Nroe);
    [apply Hfin; simpl; tauto | apply (Hsc "roe"%string); simpl; tauto |].
  destruct (percent_finite (info_get info "operatingMargins")) as (om & Hom & Fom & Nom);
    [apply Hfin; simpl; tauto | apply (Hsc "operatingMargin"%string); simpl; tauto |].
  destruct (percent_finite (info_get info "profitMargins")) as (pm & Hpm & Fpm & Npm);
    [apply Hfin; simpl; tauto | apply (Hsc "profitMargin"%string); simpl; tauto |].
  exists (mapped symbol info dy roe om pm).
  split; [apply financial_data_intro; assumption|].
  split; [|split; [|split]].
  - intros out Hin. simpl in Hin.
    repeat (destruct Hin as [<- | Hin]);
      try contradiction;
      (eexists; split; [reflexivity|]);
      try assumption;
      try (apply Hfin; simpl; tauto).
    apply py_or_finite; apply Hfin; simpl; tauto.
  - intros out key Hin. simpl in Hin.
    repeat (destruct Hin as [[= <- <-] | Hin]); try contradiction; reflexivity.
  - intros Ht Hf. cbn. unfold py_or. rewrite Ht, Hf. reflexivity.
  - intros out key Hin Hnone. simpl in Hin.
    repeat (destruct Hin as [[= <- <-] | Hin]); try contradiction; cbn.
    + rewrite (Ndy Hnone). reflexivity.
    + rewrite (Nroe Hnone). reflexivity.
    + rewrite (Nom Hnone). reflexivity.
    + rewrite (Npm Hnone). reflexivity.
Qed.

(** * Sample runs *)

Lemma yahoo_symbol_normalization_witness :
  (str_contains (str ".T") (str "7203") = false /\
   yahoo_symbol (str "7203") = str "7203.T") /\
  (str_contains (str ".T") (str "9999.T") = true /\
   str_endswith (str ".T") (str "9999.T") = true /\
   yahoo_symbol (str "9999.T") = str "9999.T").
Proof.
  pose proof (yahoo_symbol_normalization sample_float_repr accepting_stdout sample_ticker_info
                (str "fetch_financials.py") (str "7203")) as (_ & H1 & _).
  pose proof (yahoo_symbol_normalization sample_float_repr accepting_stdout sample_ticker_info
                (str "fetch_financials.py") (str "9999.T")) as (_ & _ & H2 & H3).
  split.
  - split; [reflexivity | apply H1; reflexivity].
  - split; [reflexivity | split; [reflexivity | apply H3; reflexivity]].
Defined.

Lemma percent_fields_scaled_witness :
  exists r, financial_data (str "7203") toyota_info = Returned r /\
    dict_lookup r (str "dividendYield") =
      Some (PyFloat (S754_finite false 5629499534213120 (-51))) /\
    dict_lookup r (str "roe") = Some PyNone.
Proof.
  destruct (percent_fields_scaled (str "7203") toyota_info) as [Hex Hall].
  destruct Hex as [r Hr].
  { intros out key Hin. simpl in Hin.
    repeat (destruct Hin as [[= <- <-] | Hin]); try contradiction; reflexivity. }
  exists r. split; [exact Hr|]. split.
  - destruct (Hall r Hr "dividendYield"%string "dividendYield"%string)
      as (y & Hy & _ & _ & Hf & _); [simpl; auto|].
    rewrite Hy. f_equal. apply (Hf _ eq_refl eq_refl).
  - destruct (Hall r Hr "roe"%string "returnOnEquity"%string)
      as (y & Hy & _ & _ & _ & Hn); [simpl; auto|].
    rewrite Hy. f_equal. apply Hn. reflexivity.
Defined.

Lemma per_trailing_or_forward_witness :
  financial_data (str "7203") toyota_info =
    Returned (mapped (str "7203") toyota_info
                (PyFloat (S754_finite false 5629499534213120 (-51)))
                PyNone PyNone PyNone) /\
  exists per,
    dict_lookup (mapped (str "7203") toyota_info
                   (PyFloat (S754_finite false 5629499534213120 (-51)))
                   PyNone PyNone PyNone) (str "per") = Some per /\
    per = PyFloat (S754_finite false 5910974510923776 (-49)).
Proof.
  assert (Hr : financial_data (str "7203") toyota_info =
    Returned (mapped (str "7203") toyota_info
                (PyFloat (S754_finite false 5629499534213120 (-51)))
                PyNone PyNone PyNone)) by reflexivity.
  split; [exact Hr|].
  destruct (per_trailing_or_forward _ _ _ Hr) as (per & Hper & Ht & _).
  exists per. split; [exact Hper | apply Ht; reflexivity].
Defined.

Lemma companyName_long_short_symbol_witness :
  financial_data (str "7203") toyota_info =
    Returned (mapped (str "7203") toyota_info
                (PyFloat (S754_finite false 5629499534213120 (-51)))
                PyNone PyNone PyNone) /\
  exists name,
    dict_lookup (mapped (str "7203") toyota_info
                   (PyFloat (S754_finite false 5629499534213120 (-51)))
                   PyNone PyNone PyNone) (str "companyName") = Some name /\
    name = PyStr (str "Toyota Motor Corp").
Proof.
  assert (Hr : financial_data (str "7203") toyota_info =
    Returned (mapped (str "7203") toyota_info
                (PyFloat (S754_finite false 5629499534213120 (-51)))
                PyNone PyNone PyNone)) by reflexivity.
  split; [exact Hr|].
  destruct (companyName_long_short_symbol _ _ _ Hr) as (name & Hname & Hl & _).
  exists name. split; [exact Hname | apply Hl; reflexivity].
Defined.

Lemma numeric_fields_finite_or_None_witness :
  (forall key, In key numeric_keys ->
     finite_or_None (info_get toyota_info key) = true) /\
  (forall out key, In (out, key) percent_fields ->
     scalable_value (info_get toyota_info key) = true) /\
  exists r, financial_data (str "7203") toyota_info = Returned r /\
    (forall out, In out numeric_fields ->
       exists v, dict_lookup r (str out) = Some v /\
                 finite_or_None v = true).
Proof.
  assert (H1 : forall key, In key numeric_keys ->
                 finite_or_None (info_get toyota_info key) = true).
  { intros key Hin. simpl in Hin.
    repeat (destruct Hin as [<- | Hin]); try contradiction; reflexivity. }
  assert (H2 : forall out key, In (out, key) percent_fields ->
                 scalable_value (info_get toyota_info key) = true).
  { intros out key Hin. simpl in Hin.
    repeat (destruct Hin as [[= <- <-] | Hin]); try contradiction; reflexivity. }
  split; [exact H1 | split; [exact H2|]].
  destruct (numeric_fields_finite_or_None (str "7203") toyota_info H1 H2)
    as (r & Hr & Hfin & _).
  exists r. split; assumption.
Defined.

Lemma retrieval_failure_emits_error_record_witness :
  (sample_ticker_info (yahoo_symbol (str "9999.T")) = Raised not_found /\
   run sample_float_repr accepting_stdout sample_ticker_info
       [str "fetch_financials.py"; str "9999.T"] =
     (Returned 1,
      [ Lookup (str "9999.T");
        Print stderr
          (line sample_float_repr false (error_data not_found (str "9999.T"))) ])) /\
  (exists e,
     financial_data (str "6758") nested_info = Raised e /\
     run sample_float_repr accepting_stdout sample_ticker_info
         [str "fetch_financials.py"; str "6758"] =
       (Returned 1,
        [ Lookup (str "6758.T");
          Print stderr
            (line sample_float_repr false (error_data e (str "6758"))) ])).
Proof.
  split.
  - split; [reflexivity|].
    apply (retrieval_failure_emits_error_record sample_float_repr accepting_stdout
             sample_ticker_info (str "fetch_financials.py") (str "9999.T")
             not_found).
    left. reflexivity.
  - eexists. split; [reflexivity|].
    apply (retrieval_failure_emits_error_record sample_float_repr accepting_stdout
             sample_ticker_info (str "fetch_financials.py") (str "6758")).
    right. exists nested_info. split; reflexivity.
Defined.

Lemma error_record_reports_input_symbol_witness :
  sample_ticker_info (yahoo_symbol (str "9984")) = Raised not_found /\
  exists record,
    snd (run sample_float_repr accepting_stdout sample_ticker_info
             [str "fetch_financials.py"; str "9984"]) =
      [ Lookup (str "9984.T");
        Print stderr (line sample_float_repr false record) ] /\
    dict_lookup record (str "symbol") = Some (PyStr (str "9984")).
Proof.
  split; [reflexivity|].
  destruct (error_record_reports_input_symbol sample_float_repr accepting_stdout
              sample_ticker_info (str "fetch_financials.py") (str "9984")
              not_found eq_refl) as (record & Hrun & Hsym & _).
  exists record. split; [exact Hrun | exact Hsym].
Defined.

Lemma record_symbol_is_input_witness :
  sample_ticker_info (yahoo_symbol (str "7203")) = Returned toyota_info /\
  exists r,
    financial_data (str "7203") toyota_info = Returned r /\
    emit_error sample_float_repr accepting_stdout r = None /\
    run sample_float_repr accepting_stdout sample_ticker_info
        [str "fetch_financials.py"; str "7203"] =
      (Returned 0,
       [ Lookup (str "7203.T");
         Print stdout (line sample_float_repr false r) ]) /\
    dict_lookup r (str "symbol") = Some (PyStr (str "7203")) /\
    exists info' r',
      financial_data (str "7203") info' = Returned r' /\
      line sample_float_repr false r = line sample_float_repr false r' /\
      dict_lookup r' (str "symbol") = Some (PyStr (str "7203")).
Proof.
  split; [reflexivity|].
  exists (mapped (str "7203") toyota_info
            (PyFloat (S754_finite false 5629499534213120 (-51)))
            PyNone PyNone PyNone).
  assert (Hr : financial_data (str "7203") toyota_info =
    Returned (mapped (str "7203") toyota_info
                (PyFloat (S754_finite false 5629499534213120 (-51)))
                PyNone PyNone PyNone)) by reflexivity.
  assert (He : emit_error sample_float_repr accepting_stdout
                 (mapped (str "7203") toyota_info
                    (PyFloat (S754_finite false 5629499534213120 (-51)))
                    PyNone PyNone PyNone) = None) by reflexivity.
  split; [exact Hr | split; [exact He|]].
  destruct (record_symbol_is_input sample_float_repr accepting_stdout
              sample_ticker_info (str "fetch_financials.py") (str "7203"))
    as [Hwritten Hwrites].
  destruct (Hwrites toyota_info _ eq_refl Hr He) as [Hrun Hsym].
  split; [exact Hrun | split; [exact Hsym|]].
  destruct (Hwritten (line sample_float_repr false
                        (mapped (str "7203") toyota_info
                           (PyFloat (S754_finite false 5629499534213120 (-51)))
                           PyNone PyNone PyNone)))
    as (info' & r' & _ & Hr' & _ & Hline & Hsym' & _).
  { rewrite Hrun. right. left. reflexivity. }
  exists info', r'. repeat split; assumption.
Defined.

Lemma wrong_argument_count_is_usage_error_witness :
  run sample_float_repr accepting_stdout sample_ticker_info [str "fetch_financials.py"] =
    (Returned 1, [ Print stderr (line sample_float_repr true usage_error) ]) /\
  run sample_float_repr accepting_stdout sample_ticker_info
      [str "fetch_financials.py"; str "7203"; str "6758"] =
    (Returned 1, [ Print stderr (line sample_float_repr true usage_error) ]).
Proof.
  split.
  - apply (wrong_argument_count_is_usage_error sample_float_repr accepting_stdout
             sample_ticker_info (str "fetch_financials.py") []).
    left. reflexivity.
  - apply (wrong_argument_count_is_usage_error sample_float_repr accepting_stdout
             sample_ticker_info (str "fetch_financials.py")
             [str "7203"; str "6758"]).
    right. simpl. lia.
Defined.

(** * Further properties *)

(** ** The looked-up symbol *)

(** X5: the symbol looked up always contains [".T"]; it is the input or
    the input followed by [".T"]; and normalizing it again changes
    nothing. *)
Theorem yahoo_symbol_idempotent (symbol : pystr) :
  str_contains (str ".T") (yahoo_symbol symbol) = true /\
  (yahoo_symbol symbol = symbol \/ yahoo_symbol symbol = symbol ++ str ".T") /\
  yahoo_symbol (yahoo_symbol symbol) = yahoo_symbol symbol.
Proof.
  assert (H : str_contains (str ".T") (yahoo_symbol symbol) = true).
  { unfold yahoo_symbol.
    destruct (str_contains (str ".T") symbol) eqn:E; [exact E|].
    apply str_contains_spec. exists symbol, []. rewrite app_nil_r.
    reflexivity. }
  split; [exact H | split].
  - unfold yahoo_symbol. destruct (str_contains (str ".T") symbol); auto.
  - unfold yahoo_symbol at 1. rewrite H. reflexivity.
Qed.

(** ** The shape of the record *)

(** X2: every record the mapping returns has the same seventeen keys, in
    the order of the dict display, whatever the response holds; so a
    lookup of any of them finds a value. *)
Theorem financial_data_schema (symbol : pystr) (info r : pydict) :
  financial_data symbol info = Returned r ->
  map fst r = map str record_keys /\
  (forall key, In key record_keys ->
     exists v, dict_lookup r (str key) = Some v).
Proof.
  intros Hr.
  destruct (financial_data_inv _ _ _ Hr)
    as (dy & roe & om & pm & _ & _ & _ & _ & ->).
  split; [reflexivity|].
  intros key Hin. simpl in Hin.
  repeat (destruct Hin as [<- | Hin]); try contradiction;
    eexists; reflexivity.
Qed.

(** X3: the ten copied fields hold the provider value itself, of
    whatever kind: a zero stays a zero, text stays text, a missing key
    gives [None]. *)
Theorem passthrough_fields_copied (symbol : pystr) (info r : pydict) :
  financial_data symbol info = Returned r ->
  forall out key, In (out, key) passthrough_fields ->
    dict_lookup r (str out) = Some (info_get info key).
Proof.
  intros Hr out key Hin.
  destruct (financial_data_inv _ _ _ Hr)
    as (dy & roe & om & pm & _ & _ & _ & _ & ->).
  simpl in Hin.
  repeat (destruct Hin as [[= <- <-] | Hin]); try contradiction; reflexivity.
Qed.

(** X6: the mapping reads the response through eighteen keys only: two
    responses that agree on them give the same outcome. *)
Theorem financial_data_reads_provider_keys
    (symbol : pystr) (info1 info2 : pydict) :
  (forall key, In key provider_keys ->
     info_get info1 key = info_get info2 key) ->
  financial_data symbol info1 = financial_data symbol info2.
Proof.
  intros H. unfold financial_data.
  rewrite (H "dividendYield"%string), (H "returnOnEquity"%string),
    (H "operatingMargins"%string), (H "profitMargins"%string),
    (H "longName"%string), (H "shortName"%string),
    (H "marketCap"%string), (H "trailingPE"%string),
    (H "forwardPE"%string), (H "priceToBook"%string),
    (H "trailingEps"%string), (H "debtToEquity"%string),
    (H "currentRatio"%string), (H "totalRevenue"%string),
    (H "netIncomeToCommon"%string), (H "totalAssets"%string),
    (H "totalDebt"%string), (H "totalStockholdersEquity"%string)
    by (simpl; tauto).
  reflexivity.
Qed.

(** X7: for a non-empty input symbol the company name of a record is
    never empty, [None] or otherwise falsy, whatever the response holds
    for the two names. *)
Theorem companyName_truthy (symbol : pystr) (info r : pydict) :
  symbol <> [] ->
  financial_data symbol info = Returned r ->
  exists name, dict_lookup r (str "companyName") = Some name /\
               truthy name = true.
Proof.
  intros Hs Hr.
  destruct (financial_data_inv _ _ _ Hr)
    as (dy & roe & om & pm & _ & _ & _ & _ & ->).
  eexists. split; [reflexivity|].
  unfold py_or.
  destruct (truthy (info_get info "longName")) eqn:El; [exact El|].
  destruct (truthy (info_get info "shortName")) eqn:Es; [exact Es|].
  destruct symbol; [contradiction | reflexivity].
Qed.

(** ** When the mapping raises *)

Lemma percent_cases x :
  (is_object x = false /\ exists y, percent x = Returned y) \/
  (is_object x = true /\ percent x = Raised (TypeError dict_times_int)).
Proof.
  unfold percent. destruct x as [|b|z|f|s|l|[|kv d]].
  - left. split; [reflexivity | eexists; reflexivity].
  - left. split; [reflexivity|]. destruct b; eexists; reflexivity.
  - left. split; [reflexivity|].
    destruct (truthy (PyInt z)); eexists; reflexivity.
  - left. split; [reflexivity|].
    destruct (truthy (PyFloat f)); [rewrite py_mul_float|]; eexists;
      reflexivity.
  - left. split; [reflexivity|].
    destruct (truthy (PyStr s)); eexists; reflexivity.
  - left. split; [reflexivity|].
    destruct (truthy (PyList l)); eexists; reflexivity.
  - left. split; [reflexivity | eexists; reflexivity].
  - right. split; reflexivity.
Qed.

Lemma financial_data_cases symbol info :
  (has_object_fraction info = false /\
   exists r, financial_data symbol info = Returned r) \/
  (has_object_fraction info = true /\
   financial_data symbol info = Raised (TypeError dict_times_int)).
Proof.
  unfold has_object_fraction, percent_fields, financial_data.
  cbn [existsb snd bind ret Monad_outcome].
  destruct (percent_cases (info_get info "dividendYield"))
    as [[-> [dy ->]] | [-> ->]]; [|right; split; reflexivity].
  destruct (percent_cases (info_get info "returnOnEquity"))
    as [[-> [roe ->]] | [-> ->]]; [|right; split; reflexivity].
  destruct (percent_cases (info_get info "operatingMargins"))
    as [[-> [om ->]] | [-> ->]]; [|right; split; reflexivity].
  destruct (percent_cases (info_get info "profitMargins"))
    as [[-> [pm ->]] | [-> ->]]; [|right; split; reflexivity].
  left. split; [reflexivity | eexists; reflexivity].
Qed.

(** X4: the mapping raises exactly when one of the four percentage
    fractions is a non-empty object, and the exception is then the
    [TypeError] of [dict * int]; every other response, whatever the
    kinds of its values, gives a record. *)
Theorem financial_data_raises_iff (symbol : pystr) (info : pydict) :
  (forall e, financial_data symbol info = Raised e <->
             has_object_fraction info = true /\
             e = TypeError dict_times_int) /\
  ((exists r, financial_data symbol info = Returned r) <->
   has_object_fraction info = false).
Proof.
  destruct (financial_data_cases symbol info) as [[Hn [r Hr]] | [Ho He]].
  - rewrite Hn, Hr. split.
    + intros e. split; [discriminate | intros [H _]; discriminate H].
    + split; [reflexivity | intros _; exists r; reflexivity].
  - rewrite Ho, He. split.
    + intros e. split.
      * intros [= <-]. split; reflexivity.
      * intros [_ ->]. reflexivity.
    + split; [intros [r H]; discriminate H | discriminate].
Qed.

(** ** Text in a percentage field *)

Lemma seq_repeat_length {A} (l : list A) (n : nat) :
  List.length (seq_repeat l (Z.of_nat n)) = (n * List.length l)%nat.
Proof.
  unfold seq_repeat. rewrite Nat2Z.id.
  induction n as [|n IH]; [reflexivity|].
  cbn [repeat List.concat]. rewrite length_app, IH. reflexivity.
Qed.

(** X10: a percentage fraction that is non-empty text does not raise:
    the field is that text a hundred times over. *)
Theorem percent_of_text_repeats
    (symbol : pystr) (info r : pydict) (out key : string) (s : pystr) :
  In (out, key) percent_fields ->
  info_get info key = PyStr s -> s <> [] ->
  financial_data symbol info = Returned r ->
  dict_lookup r (str out) = Some (PyStr (seq_repeat s 100)) /\
  List.length (seq_repeat s 100) = (100 * List.length s)%nat.
Proof.
  intros Hin Hs Hne Hr.
  split; [|apply (seq_repeat_length s 100)].
  assert (Hp : percent (info_get info key) =
               Returned (PyStr (seq_repeat s 100))).
  { rewrite Hs. unfold percent. destruct s; [contradiction | reflexivity]. }
  destruct (financial_data_inv _ _ _ Hr)
    as (dy & roe & om & pm & Hdy & Hroe & Hom & Hpm & ->).
  simpl in Hin.
  repeat (destruct Hin as [[= <- <-] | Hin]); try contradiction;
    [ rewrite Hp in Hdy; injection Hdy as <-
    | rewrite Hp in Hroe; injection Hroe as <-
    | rewrite Hp in Hom; injection Hom as <-
    | rewrite Hp in Hpm; injection Hpm as <- ];
    reflexivity.
Qed.

(** ** A percentage field is never zero *)

Lemma Zdigits2_le_succ m : 0 <= m -> Zdigits2 m <= Zdigits2 (m + 1).
Proof.
  intros Hm. destruct m as [|p|p]; [simpl; lia | | lia].
  change (Zpos p + 1) with (Zpos (p + 1)). unfold Zdigits2.
  apply digits2_pos_le; [lia|].
  pose proof (digits2_pos_gt (p + 1)). lia.
Qed.

Lemma round_nearest_even_digits_ge m l :
  0 <= m -> Zdigits2 m <= Zdigits2 (round_nearest_even m l).
Proof.
  intros Hm. pose proof (Zdigits2_le_succ m Hm).
  unfold round_nearest_even.
  destruct l as [|[| |]]; try destruct (Z.even m); lia.
Qed.

Lemma digits2_pos_ge p j :
  0 <= j -> 2 ^ j <= Zpos p -> j + 1 <= Zpos (digits2_pos p).
Proof.
  intros Hj Hp. pose proof (digits2_pos_gt p) as Hgt.
  destruct (Z_le_gt_dec (Zpos (digits2_pos p)) j) as [Hle|]; [|lia].
  pose proof (Z.pow_le_mono_r 2 (Zpos (digits2_pos p)) j ltac:(lia) Hle).
  lia.
Qed.

(** Rounding a positive mantissa of at least 53 digits whose exponent
    is at most 46 below the least exponent never gives a zero. *)
Lemma binary_round_aux_nonzero sx mx ex lx :
  0 <= mx -> 53 <= Zdigits2 mx -> -1120 <= ex ->
  truthy (PyFloat (binary_round_aux prec emax sx mx ex lx)) = true.
Proof.
  intros Hm Hd He. unfold binary_round_aux.
  destruct (shr_fexp prec emax mx ex lx) as [mrs' e'] eqn:E1.
  destruct (shr_fexp_bounds _ _ _ _ _ Hm E1) as (H1 & He' & Hd').
  pose proof (round_nearest_even_digits_ge (shr_m mrs')
                (loc_of_shr_record mrs') H1) as Hge.
  destruct (round_nearest_even_bounds (shr_m mrs') (loc_of_shr_record mrs') H1)
    as [H2 _].
  destruct (shr_fexp prec emax _ e' loc_Exact) as [mrs'' e''] eqn:E2.
  destruct (shr_fexp_bounds _ _ _ _ _ H2 E2) as (H3 & He'' & Hd'').
  unfold fexp, SpecFloat.emin, prec, emax in *.
  destruct (shr_m mrs'') as [|m|m].
  - simpl Zdigits2 in Hd''. lia.
  - destruct (e'' <=? 1024 - 53); reflexivity.
  - lia.
Qed.

Lemma float_mul_hundred_truthy f :
  valid_binary prec emax f = true ->
  truthy (PyFloat f) = true ->
  truthy (PyFloat (float_mul f hundred)) = true.
Proof.
  destruct f as [s|s| |s m e]; try discriminate; try reflexivity.
  intros Hv _. unfold valid_binary, bounded, canonical_mantissa in Hv.
  apply andb_true_iff in Hv. destruct Hv as [Hc _].
  apply Z.eqb_eq in Hc.
  unfold float_mul, hundred, SFmul.
  apply binary_round_aux_nonzero; [lia | | ].
  - unfold Zdigits2.
    pose proof (digits2_pos_ge (m * 7036874417766400) 52 ltac:(lia)) as H.
    assert (2 ^ 52 <= Zpos (m * 7036874417766400)).
    { rewrite Pos2Z.inj_mul.
      assert (2 ^ 52 <= 7036874417766400) by (vm_compute; discriminate).
      nia. }
    lia.
  - unfold fexp, SpecFloat.emin, prec, emax in Hc. lia.
Qed.

Lemma seq_repeat_nonempty {A} (l : list A) :
  l <> [] -> seq_repeat l 100 <> [].
Proof.
  intros Hl H. apply (f_equal (@List.length A)) in H.
  pose proof (seq_repeat_length l 100) as Hlen.
  change (Z.of_nat 100) with 100 in Hlen. rewrite Hlen in H.
  destruct l; [contradiction | discriminate H].
Qed.

Lemma percent_None_or_truthy x y :
  valid_value x = true -> percent x = Returned y ->
  y = PyNone \/ truthy y = true.
Proof.
  unfold percent. intros Hv.
  destruct (truthy x) eqn:Ht; [|intros [= <-]; left; reflexivity].
  intros Hy. right.
  destruct x as [|b|z|f|s|l|d]; try discriminate.
  - simpl in Ht. subst b. simpl in Hy. injection Hy as <-. reflexivity.
  - simpl in Hy. injection Hy as <-. simpl in *.
    destruct (Z.eqb_spec z 0); [discriminate|].
    destruct (Z.eqb_spec (z * 100) 0); [lia | reflexivity].
  - rewrite py_mul_float in Hy. injection Hy as <-.
    apply float_mul_hundred_truthy; assumption.
  - simpl in Hy. injection Hy as <-.
    destruct s as [|c s]; [discriminate|].
    pose proof (seq_repeat_nonempty (c :: s) ltac:(discriminate)).
    simpl. destruct (seq_repeat (c :: s) 100); [contradiction | reflexivity].
  - simpl in Hy. injection Hy as <-.
    destruct l as [|c l]; [discriminate|].
    pose proof (seq_repeat_nonempty (c :: l) ltac:(discriminate)).
    simpl. destruct (seq_repeat (c :: l) 100); [contradiction | reflexivity].
Qed.

(** X8: when the floats among the four fractions are binary64 values,
    a percentage field of a record is [None] or truthy: it is never a
    zero, and never empty.  A fraction of zero gives [None], and the
    product of a non-zero fraction with 100 is not zero. *)
Theorem percent_fields_None_or_truthy (symbol : pystr) (info r : pydict) :
  (forall out key, In (out, key) percent_fields ->
     valid_value (info_get info key) = true) ->
  financial_data symbol info = Returned r ->
  forall out key, In (out, key) percent_fields ->
    exists y, dict_lookup r (str out) = Some y /\
              (y = PyNone \/ truthy y = true).
Proof.
  intros Hv Hr out key Hin.
  destruct (financial_data_inv _ _ _ Hr)
    as (dy & roe & om & pm & Hdy & Hroe & Hom & Hpm & ->).
  pose proof (Hv _ _ Hin) as Hvx.
  simpl in Hin.
  repeat (destruct Hin as [[= <- <-] | Hin]); try contradiction;
    eexists; (split; [reflexivity|]);
    eapply percent_None_or_truthy; eassumption.
Qed.

(** ** Every run *)

Section EveryRun.

Variable float_repr : spec_float -> pystr.
Variable stdout_error : pystr -> option pyexn.
Variable ticker_info : pystr -> outcome pydict.

Lemma get_financial_data_cases symbol :
  (exists info r,
     ticker_info (yahoo_symbol symbol) = Returned info /\
     financial_data symbol info = Returned r /\
     emit_error float_repr stdout_error r = None /\
     get_financial_data float_repr stdout_error ticker_info symbol [] =
       (Returned 0,
        [ Lookup (yahoo_symbol symbol);
          Print stdout (line float_repr false r) ])) \/
  (exists e,
     (ticker_info (yahoo_symbol symbol) = Raised e \/
      (exists info, ticker_info (yahoo_symbol symbol) = Returned info /\
                    financial_data symbol info = Raised e) \/
      (exists info r, ticker_info (yahoo_symbol symbol) = Returned info /\
                      financial_data symbol info = Returned r /\
                      emit_error float_repr stdout_error r = Some e)) /\
     get_financial_data float_repr stdout_error ticker_info symbol [] =
       (Returned 1,
        [ Lookup (yahoo_symbol symbol);
          Print stderr (line float_repr false (error_data e symbol)) ])).
Proof.
  destruct (ticker_info (yahoo_symbol symbol)) as [info|e] eqn:Hinfo.
  - destruct (financial_data symbol info) as [r|e] eqn:Hr.
    + destruct (emit_error float_repr stdout_error r) as [e|] eqn:He.
      * right. exists e. split.
        -- right. right. exists info, r. repeat split; assumption.
        -- apply (get_financial_data_emit_failure _ _ _ symbol info r e []
                    Hinfo Hr He).
      * left. exists info, r.
        split; [reflexivity | split; [exact Hr | split; [exact He|]]].
        apply (get_financial_data_success _ _ _ symbol info r [] Hinfo Hr He).
    + right. exists e. split.
      * right. left. exists info. split; [reflexivity | exact Hr].
      * apply (get_financial_data_failure _ _ _ symbol e []).
        right. exists info. split; assumption.
  - right. exists e. split; [left; reflexivity|].
    apply (get_financial_data_failure _ _ _ symbol e [] (or_introl Hinfo)).
Qed.

Lemma main_dispatch argv :
  (List.length argv <> 2%nat /\
   run float_repr stdout_error ticker_info argv =
     (Returned 1, [ Print stderr (line float_repr true usage_error) ])) \/
  (exists prog symbol,
     argv = [prog; symbol] /\
     run float_repr stdout_error ticker_info argv =
       get_financial_data float_repr stdout_error ticker_info symbol []).
Proof.
  destruct argv as [|prog [|symbol [|extra argv]]].
  - left. split; [discriminate | reflexivity].
  - left. split; [discriminate | reflexivity].
  - right. exists prog, symbol. split; reflexivity.
  - left. split; [discriminate | reflexivity].
Qed.


(** X11: the exit status is 0 exactly when there is one argument, the
    lookup of its normalized symbol returns a response, none of the
    four percentage fractions of that response is a non-empty object,
    and printing the record does not raise (no [int] of the record has
    more than 4300 digits and standard output takes the text); in every
    other case it is 1. *)
Theorem exit_status_zero_iff (argv : list pystr) :
  (fst (run float_repr stdout_error ticker_info argv) = Returned 0 <->
   exists prog symbol info r,
     argv = [prog; symbol] /\
     ticker_info (yahoo_symbol symbol) = Returned info /\
     has_object_fraction info = false /\
     financial_data symbol info = Returned r /\
     has_long_int (PyDict r) = false /\
     stdout_error (json_text float_repr false (PyDict r)) = None) /\
  (fst (run float_repr stdout_error ticker_info argv) = Returned 0 \/
   fst (run float_repr stdout_error ticker_info argv) = Returned 1).
Proof.
  assert (Hemit : forall r,
            emit_error float_repr stdout_error r = None <->
            has_long_int (PyDict r) = false /\
            stdout_error (json_text float_repr false (PyDict r)) = None).
  { intros r. unfold emit_error, json_dumps.
    destruct (has_long_int (PyDict r)).
    - split; [discriminate | intros [H _]; discriminate H].
    - split; [intros H; split; [reflexivity | exact H] | intros [_ H]; exact H]. }
  destruct (main_dispatch argv) as [[Hlen ->] | (prog & symbol & -> & ->)].
  - split; [|right; reflexivity]. split; [discriminate|].
    intros (prog & symbol & info & r & -> & _). contradiction Hlen.
    reflexivity.
  - destruct (get_financial_data_cases symbol)
      as [(info & r & Hinfo & Hr & He & ->) | (e & He & ->)].
    + split; [|left; reflexivity]. split; [|reflexivity].
      intros _. exists prog, symbol, info, r.
      apply Hemit in He. destruct He as [Hlong Hout].
      split; [reflexivity | split; [exact Hinfo | split]].
      * destruct (financial_data_cases symbol info) as [[Hn _] | [_ Hraise]];
          [exact Hn | congruence].
      * split; [exact Hr | split; assumption].
    + split; [|right; reflexivity]. split; [discriminate|].
      intros (prog' & symbol' & info & r & [= <- <-] & Hinfo & _ & Hr
              & Hlong & Hout).
      assert (Hnone : emit_error float_repr stdout_error r = None)
        by (apply Hemit; split; assumption).
      destruct He as [He | [(info' & Hinfo' & He)
                           | (info' & r' & Hinfo' & Hr' & He)]];
        congruence.
Qed.

(** X9: when [float.__repr__] writes plain ASCII, a line written by
    [get_financial_data], on either stream, is the text of its record
    followed by the only newline of the line, and its non-ASCII
    characters are those of the strings of the record, unescaped. *)
Theorem written_lines_single_and_literal
    (prog symbol : pystr) (file : stream) (text : pystr) :
  (forall f, forallb plain (float_repr f) = true) ->
  In (Print file text) (snd (run float_repr stdout_error ticker_info [prog; symbol])) ->
  exists record,
    text = line float_repr false record /\
    filter is_newline text = [10%N] /\
    filter non_ascii text = non_ascii_chars (PyDict record).
Proof.
  intros Hplain Hin.
  rewrite run_one_argument in Hin.
  destruct (get_financial_data_cases symbol)
    as [(info & r & _ & _ & _ & Hrun) | (e & _ & Hrun)];
    rewrite Hrun in Hin; cbn [snd] in Hin;
    destruct Hin as [Hin | [Hin | []]]; try discriminate Hin;
    injection Hin as _ <-; eexists; (split; [reflexivity|]);
    apply line_false_single_literal, Hplain.
Qed.

End EveryRun.

(** ** Sample runs of the further properties *)

Lemma financial_data_schema_witness :
  exists r, financial_data (str "7203") toyota_info = Returned r /\
            map fst r = map str record_keys.
Proof.
  eexists. split; [reflexivity|].
  apply (financial_data_schema (str "7203") toyota_info). reflexivity.
Defined.

Lemma passthrough_fields_copied_witness :
  exists r, financial_data (str "7203") toyota_info = Returned r /\
            dict_lookup r (str "marketCap") = Some PyNone.
Proof.
  eexists. split; [reflexivity|].
  apply (passthrough_fields_copied (str "7203") toyota_info _ eq_refl
           "marketCap"%string "marketCap"%string).
  simpl. auto.
Defined.

Lemma financial_data_reads_provider_keys_witness :
  (forall key, In key provider_keys ->
     info_get toyota_info_extended key = info_get toyota_info key) /\
  financial_data (str "7203") toyota_info_extended =
    financial_data (str "7203") toyota_info.
Proof.
  assert (H : forall key, In key provider_keys ->
                info_get toyota_info_extended key = info_get toyota_info key).
  { intros key Hin. simpl in Hin.
    repeat (destruct Hin as [<- | Hin]); try contradiction; reflexivity. }
  split; [exact H|].
  apply (financial_data_reads_provider_keys (str "7203") _ _ H).
Defined.

Lemma companyName_truthy_witness :
  str "6758" <> [] /\
  exists r name,
    financial_data (str "6758") text_info = Returned r /\
    dict_lookup r (str "companyName") = Some name /\ truthy name = true.
Proof.
  split; [discriminate|].
  assert (Hr : exists r, financial_data (str "6758") text_info = Returned r)
    by (eexists; reflexivity).
  destruct Hr as [r Hr].
  destruct (companyName_truthy (str "6758") text_info r
              ltac:(discriminate) Hr) as (name & Hname & Ht).
  exists r, name. repeat split; assumption.
Defined.

Lemma financial_data_raises_iff_witness :
  has_object_fraction nested_info = true /\
  financial_data (str "6758") nested_info =
    Raised (TypeError dict_times_int) /\
  has_object_fraction toyota_info = false /\
  exists r, financial_data (str "7203") toyota_info = Returned r.
Proof.
  split; [reflexivity | split; [| split; [reflexivity|]]].
  - apply (proj1 (financial_data_raises_iff (str "6758") nested_info)).
    split; reflexivity.
  - apply (proj2 (financial_data_raises_iff (str "7203") toyota_info)).
    reflexivity.
Defined.

Lemma percent_of_text_repeats_witness :
  exists r, financial_data (str "6758") text_info = Returned r /\
    dict_lookup r (str "dividendYield") =
      Some (PyStr (seq_repeat (str "Infinity") 100)) /\
    List.length (seq_repeat (str "Infinity") 100) = 800%nat.
Proof.
  eexists. split; [reflexivity|].
  apply (percent_of_text_repeats (str "6758") text_info _
           "dividendYield"%string "dividendYield"%string (str "Infinity")).
  - simpl. auto.
  - reflexivity.
  - discriminate.
  - reflexivity.
Defined.

Lemma percent_fields_None_or_truthy_witness :
  (forall out key, In (out, key) percent_fields ->
     valid_value (info_get toyota_info key) = true) /\
  exists r, financial_data (str "7203") toyota_info = Returned r /\
    forall out key, In (out, key) percent_fields ->
      exists y, dict_lookup r (str out) = Some y /\
                (y = PyNone \/ truthy y = true).
Proof.
  assert (H : forall out key, In (out, key) percent_fields ->
                valid_value (info_get toyota_info key) = true).
  { intros out key Hin. simpl in Hin.
    repeat (destruct Hin as [[= <- <-] | Hin]); try contradiction;
      reflexivity. }
  split; [exact H|].
  eexists. split; [reflexivity|].
  apply (percent_fields_None_or_truthy (str "7203") toyota_info _ H).
  reflexivity.
Defined.

Lemma exit_status_zero_iff_witness :
  fst (run sample_float_repr accepting_stdout sample_ticker_info
         [str "fetch_financials.py"; str "7203"]) = Returned 0 /\
  fst (run sample_float_repr accepting_stdout sample_ticker_info
         [str "fetch_financials.py"; str "6758"]) <> Returned 0.
Proof.
  split.
  - apply (proj1 (exit_status_zero_iff sample_float_repr accepting_stdout
                    sample_ticker_info
                    [str "fetch_financials.py"; str "7203"])).
    exists (str "fetch_financials.py"), (str "7203"), toyota_info.
    eexists. repeat split.
  - intros H.
    apply (proj1 (exit_status_zero_iff sample_float_repr accepting_stdout
                    sample_ticker_info
                    [str "fetch_financials.py"; str "6758"])) in H.
    destruct H as (prog & symbol & info & r & [= <- <-] & Hinfo & Hn & _).
    injection Hinfo as <-. discriminate Hn.
Defined.

(** The limit is on the number of digits: 4300 pass, 4301 do not. *)
Lemma int_limit_example :
  has_long_int (PyInt (10 ^ 4300 - 1)) = false /\
  has_long_int (PyInt (10 ^ 4300)) = true /\
  has_long_int (PyInt (- 10 ^ 4300)) = true.
Proof. vm_compute. repeat split. Qed.

(** A record standard output refuses: the lookup and the mapping
    return, and the run ends with the error record and status 1. *)
Lemma unprintable_record_example :
  run sample_float_repr strict_stdout toyota_ticker_info
      [str "fetch_financials.py"; surrogate_symbol] =
    (Returned 1,
     [ Lookup surrogate_symbol;
       Print stderr
         (line sample_float_repr false
            (error_data
               (mkExn "UnicodeEncodeError" (str "surrogates not allowed"))
               surrogate_symbol)) ]).
Proof. vm_compute. reflexivity. Qed.

(** A record [json.dumps] refuses: a market capitalization of 4301
    digits ends the run with the error record and status 1. *)
Lemma long_int_example :
  run sample_float_repr accepting_stdout long_int_ticker_info
      [str "fetch_financials.py"; str "7203"] =
    (Returned 1,
     [ Lookup (str "7203.T");
       Print stderr
         (line sample_float_repr false
            (error_data (ValueError exceeds_limit) (str "7203"))) ]).
Proof. vm_compute. reflexivity. Qed.

Lemma written_lines_single_and_literal_witness :
  (forall f, forallb plain (sample_float_repr f) = true) /\
  exists text,
    snd (run sample_float_repr accepting_stdout failing_ticker_info
           [str "fetch_financials.py"; str "9999.T"]) =
      [ Lookup (str "9999.T"); Print stderr text ] /\
    filter is_newline text = [10%N] /\
    filter non_ascii text = [0x30c7; 0x30fc; 0x30bf]%N.
Proof.
  split; [exact sample_float_repr_plain|].
  eexists. split; [reflexivity|].
  destruct (written_lines_single_and_literal sample_float_repr accepting_stdout
              failing_ticker_info
              (str "fetch_financials.py") (str "9999.T") stderr _
              sample_float_repr_plain
              (or_intror (or_introl eq_refl)))
    as (record & Htext & Hnl & Hna).
  split; [exact Hnl|].
  rewrite Hna. apply (f_equal (filter non_ascii)) in Htext.
  rewrite (proj2 (line_false_single_literal sample_float_repr
                    sample_float_repr_plain record)) in Htext.
  rewrite <- Htext. reflexivity.
Defined.
